(** * shaarlis: the feed-URL canonicalizer and reconciler of [sync.py]

    A shallow embedding of [sync.py] and of the parts of the Python 3.11
    standard library it calls ([urllib.parse.urlparse], [urlunparse],
    [pathlib.PurePosixPath.parts], a few [str] methods).

    Text is modelled as [string], a sequence of 8-bit code points.  A raised
    exception is modelled by [None].  On such text [_checknetloc] never
    raises (no code point below 256 normalises under NFKC to one of
    [/?#@:]), so it is omitted from [urlsplit]; on text with other code
    points it can raise, and nothing here speaks of such text.  [Path] is
    the POSIX flavour. *)

From Stdlib Require Import Ascii String List Bool Arith Lia.
From stdpp Require Import gmap strings pretty.

Local Open Scope stdpp_scope.

(** ** Python [str] methods *)

Module Py.

(** [c in s] for a one-character [c]. *)
Fixpoint contains (c : ascii) (s : string) : bool :=
  match s with
  | EmptyString => false
  | String d r => if Ascii.eqb c d then true else contains c r
  end.

(** [s.find(c)]; [None] stands for [-1]. *)
Fixpoint find (c : ascii) (s : string) : option nat :=
  match s with
  | EmptyString => None
  | String d r => if Ascii.eqb c d then Some 0 else option_map S (find c r)
  end.

(** [s.rfind(c)]. *)
Fixpoint rfind (c : ascii) (s : string) : option nat :=
  match s with
  | EmptyString => None
  | String d r =>
      match rfind c r with
      | Some i => Some (S i)
      | None => if Ascii.eqb c d then Some 0 else None
      end
  end.

(** [s[:n]] and [s[n:]]. *)
Fixpoint take (n : nat) (s : string) : string :=
  match n, s with
  | S n', String c r => String c (take n' r)
  | _, _ => EmptyString
  end.

Fixpoint drop (n : nat) (s : string) : string :=
  match n, s with
  | S n', String _ r => drop n' r
  | _, _ => s
  end.

(** [s.find(c, start)] for [start >= 0]. *)
Definition find_from (c : ascii) (start : nat) (s : string) : option nat :=
  option_map (Nat.add start) (find c (drop start s)).

(** [all(p(c) for c in s)]. *)
Fixpoint all (p : ascii -> bool) (s : string) : bool :=
  match s with
  | EmptyString => true
  | String c r => p c && all p r
  end.

(** [s.lstrip(chars)], [s.rstrip(chars)], [s.strip(chars)], with [chars]
    given as its membership test. *)
Fixpoint lstrip (p : ascii -> bool) (s : string) : string :=
  match s with
  | EmptyString => EmptyString
  | String c r => if p c then lstrip p r else s
  end.

Fixpoint rstrip (p : ascii -> bool) (s : string) : string :=
  match s with
  | EmptyString => EmptyString
  | String c r =>
      match rstrip p r with
      | EmptyString => if p c then EmptyString else String c EmptyString
      | r' => String c r'
      end
  end.

Definition strip (p : ascii -> bool) (s : string) : string :=
  rstrip p (lstrip p s).

(** [s.startswith(t)] and [s.endswith(t)]. *)
Definition startswith (s t : string) : bool := String.prefix t s.

Definition endswith (s t : string) : bool :=
  (String.length t <=? String.length s)
  && String.eqb (drop (String.length s - String.length t) s) t.

(** [s.partition(c)] and [s.rpartition(c)] for a one-character [c]; the
    middle component is returned as the flag "separator found". *)
Definition partition (c : ascii) (s : string) : string * bool * string :=
  match find c s with
  | Some i => (take i s, true, drop (S i) s)
  | None => (s, false, EmptyString)
  end.

Definition rpartition (c : ascii) (s : string) : string * bool * string :=
  match rfind c s with
  | Some i => (take i s, true, drop (S i) s)
  | None => (EmptyString, false, s)
  end.

(** [s.split(c)] for a one-character [c]. *)
Fixpoint split (c : ascii) (s : string) : list string :=
  match s with
  | EmptyString => [EmptyString]
  | String d r =>
      if Ascii.eqb c d then EmptyString :: split c r
      else match split c r with
           | x :: xs => String d x :: xs
           | [] => [String d EmptyString]
           end
  end.

(** [sep.join(l)]. *)
Fixpoint join (sep : string) (l : list string) : string :=
  match l with
  | [] => EmptyString
  | [x] => x
  | x :: xs => x +:+ sep +:+ join sep xs
  end.

(** [s.replace(old, new)]: every non-overlapping occurrence of [old],
    scanning from the left.  The scan is bounded by the length of [s]. *)
Fixpoint replace_scan (fuel : nat) (old new s : string) : string :=
  match fuel with
  | 0 => s
  | S fuel' =>
      match s with
      | EmptyString => EmptyString
      | String c r =>
          if String.prefix old s
          then new +:+ replace_scan fuel' old new (drop (String.length old) s)
          else String c (replace_scan fuel' old new r)
      end
  end.

Fixpoint interleave (new s : string) : string :=
  match s with
  | EmptyString => new
  | String c r => new +:+ String c (interleave new r)
  end.

Definition replace (old new s : string) : string :=
  match old with
  | EmptyString => interleave new s
  | _ => replace_scan (String.length s) old new s
  end.

(** [c.isascii() and c.isalpha()], and [c.lower()] on ASCII letters. *)
Definition is_ascii_alpha (c : ascii) : bool :=
  let n := nat_of_ascii c in
  ((65 <=? n) && (n <=? 90)) || ((97 <=? n) && (n <=? 122)).

Definition lower_char (c : ascii) : ascii :=
  let n := nat_of_ascii c in
  if (65 <=? n) && (n <=? 90) then ascii_of_nat (n + 32) else c.

(** [s.lower()]; its only caller passes text over [scheme_chars], where
    only the ASCII capitals change. *)
Fixpoint lower (s : string) : string :=
  match s with
  | EmptyString => EmptyString
  | String c r => String (lower_char c) (lower r)
  end.

(** [x in l] for a list or set of strings. *)
Definition mem (x : string) (l : list string) : bool :=
  existsb (String.eqb x) l.

(** [l.remove(x)]: drops the first occurrence. *)
Fixpoint list_remove (x : string) (l : list string) : list string :=
  match l with
  | [] => []
  | y :: ys => if String.eqb x y then ys else y :: list_remove x ys
  end.

End Py.

(** ** [urllib.parse] *)

Module Urllib.

Definition uses_netloc : list string :=
  [""; "ftp"; "http"; "gopher"; "nntp"; "telnet";
   "imap"; "wais"; "file"; "mms"; "https"; "shttp";
   "snews"; "prospero"; "rtsp"; "rtspu"; "rsync";
   "svn"; "svn+ssh"; "sftp"; "nfs"; "git"; "git+ssh";
   "ws"; "wss"].

Definition uses_params : list string :=
  [""; "ftp"; "hdl"; "prospero"; "http"; "imap";
   "https"; "shttp"; "rtsp"; "rtspu"; "sip"; "sips";
   "mms"; "sftp"; "tel"].

Definition scheme_chars : string :=
  "abcdefghijklmnopqrstuvwxyzABCDEFGHIJKLMNOPQRSTUVWXYZ0123456789+-.".

(** Membership in [_WHATWG_C0_CONTROL_OR_SPACE], the code points 0 to 32. *)
Definition whatwg_c0_control_or_space (c : ascii) : bool :=
  nat_of_ascii c <=? 32.

(** [_UNSAFE_URL_BYTES_TO_REMOVE]: tab, carriage return, line feed. *)
Definition unsafe_url_bytes_to_remove : list ascii :=
  ["009"; "013"; "010"]%char.

Record SplitResult := mkSplit {
  s_scheme : string; s_netloc : string; s_url : string;
  s_query : string; s_fragment : string }.

Record ParseResult := mkParse {
  scheme : string; netloc : string; path : string;
  params : string; query : string; fragment : string }.

Definition nonempty (s : string) : bool :=
  match s with EmptyString => false | _ => true end.

Definition _splitparams (url : string) : string * string :=
  if Py.contains "/" url then
    match Py.rfind "/" url with
    | Some j =>
        match Py.find_from ";" j url with
        | Some i => (Py.take i url, Py.drop (S i) url)
        | None => (url, EmptyString)
        end
    | None => (url, EmptyString)
    end
  else
    match Py.find ";" url with
    | Some i => (Py.take i url, Py.drop (S i) url)
    | None => (Py.take (String.length url - 1) url, url)
    end.

Definition _splitnetloc (url : string) (start : nat) : string * string :=
  let delim :=
    fold_left
      (fun delim c =>
         match Py.find_from c start url with
         | Some wdelim => Nat.min delim wdelim
         | None => delim
         end)
      ["/"; "?"; "#"]%char (String.length url) in
  (Py.drop start (Py.take delim url), Py.drop delim url).

Section Parse.

(** [_check_bracketed_host hostname] validates an IPv6 or IPvFuture literal
    with [ipaddress] and a regular expression, neither of which is embedded
    here: the test is a parameter, [true] when the call returns and [false]
    when it raises [ValueError]. *)
Variable _check_bracketed_host : string -> bool.

Definition _check_bracketed_netloc (netloc : string) : bool :=
  let '(_, _, hostname_and_port) := Py.rpartition "@" netloc in
  let '(before_bracket, have_open_br, bracketed) :=
    Py.partition "[" hostname_and_port in
  if have_open_br then
    if nonempty before_bracket then false
    else
      let '(hostname, _, port) := Py.partition "]" bracketed in
      if nonempty port && negb (Py.startswith port ":") then false
      else _check_bracketed_host hostname
  else
    let '(hostname, _, _) := Py.partition ":" hostname_and_port in
    _check_bracketed_host hostname.

(** The checks [urlsplit] runs on a netloc it has split off. *)
Definition netloc_ok (netloc : string) : bool :=
  let ob := Py.contains "[" netloc in
  let cb := Py.contains "]" netloc in
  if (ob && negb cb) || (cb && negb ob) then false
  else if ob && cb then _check_bracketed_netloc netloc
  else true.

(** [urlsplit(url)] with the default [scheme=''] and
    [allow_fragments=True], stage by stage. *)

(** The leading strip and the removal of the unsafe bytes. *)
Definition strip_unsafe (url : string) : string :=
  fold_left (fun url b => Py.replace (String b EmptyString) EmptyString url)
    unsafe_url_bytes_to_remove
    (Py.lstrip whatwg_c0_control_or_space url).

(** [i = url.find(':')] and the scan of [url[:i]] over [scheme_chars]. *)
Definition split_scheme (url : string) : string * string :=
  match Py.find ":" url, url with
  | Some (S _ as i), String c0 _ =>
      if Py.is_ascii_alpha c0
         && Py.all (fun c => Py.contains c scheme_chars) (Py.take i url)
      then (Py.lower (Py.take i url), Py.drop (S i) url)
      else (EmptyString, url)
  | _, _ => (EmptyString, url)
  end.

(** [if url[:2] == '//': netloc, url = _splitnetloc(url, 2)]. *)
Definition split_netloc (url : string) : string * string :=
  if String.eqb (Py.take 2 url) "//" then _splitnetloc url 2
  else (EmptyString, url).

(** [if c in url: url, rest = url.split(c, 1)]. *)
Definition split_once (c : ascii) (url : string) : string * string :=
  if Py.contains c url
  then let '(a, _, b) := Py.partition c url in (a, b)
  else (url, EmptyString).

Definition urlsplit (url : string) : option SplitResult :=
  let url := strip_unsafe url in
  match split_scheme url with
  | (scheme, url) =>
      match split_netloc url with
      | (netloc, url) =>
          if negb (netloc_ok netloc) then None
          else
            match split_once "#" url with
            | (url, fragment) =>
                match split_once "?" url with
                | (url, query) =>
                    Some (mkSplit scheme netloc url query fragment)
                end
            end
      end
  end.

Definition urlparse (url : string) : option ParseResult :=
  match urlsplit url with
  | None => None
  | Some (mkSplit scheme netloc url query fragment) =>
      match (if Py.mem scheme uses_params && Py.contains ";" url
             then _splitparams url
             else (url, EmptyString)) with
      | (url, params) => Some (mkParse scheme netloc url params query fragment)
      end
  end.

End Parse.

Definition urlunsplit (c : SplitResult) : string :=
  let '(mkSplit scheme netloc url query fragment) := c in
  let url :=
    if nonempty netloc
       || (nonempty scheme && Py.mem scheme uses_netloc
           && negb (String.eqb (Py.take 2 url) "//"))
    then
      let url :=
        if nonempty url && negb (String.eqb (Py.take 1 url) "/")
        then "/" +:+ url else url in
      "//" +:+ netloc +:+ url
    else url in
  let url := if nonempty scheme then scheme +:+ ":" +:+ url else url in
  let url := if nonempty query then url +:+ "?" +:+ query else url in
  let url := if nonempty fragment then url +:+ "#" +:+ fragment else url in
  url.

Definition urlunparse (c : ParseResult) : string :=
  let '(mkParse scheme netloc url params query fragment) := c in
  let url := if nonempty params then url +:+ ";" +:+ params else url in
  urlunsplit (mkSplit scheme netloc url query fragment).

End Urllib.

(** ** [pathlib]: [PurePosixPath(p).parts] for a single argument *)

Module Pathlib.

Definition is_sep (c : ascii) : bool := Ascii.eqb c "/".

Definition splitroot (part : string) : string * string * string :=
  match part with
  | String c _ =>
      if is_sep c then
        let stripped_part := Py.lstrip is_sep part in
        if String.length part - String.length stripped_part =? 2
        then (EmptyString, "//", stripped_part)
        else (EmptyString, "/", stripped_part)
      else (EmptyString, EmptyString, part)
  | EmptyString => (EmptyString, EmptyString, part)
  end.

Definition keep_part (x : string) : bool :=
  Urllib.nonempty x && negb (String.eqb x ".").

(** [parse_parts] walks its arguments and the segments of each in reverse
    and reverses the result at the end; with one argument that is the
    segments in order, after the root. *)
Definition parse_parts (part : string) : list string :=
  match part with
  | EmptyString => []
  | _ =>
      let '(drv, root, rel) := splitroot part in
      let parsed :=
        if Py.contains "/" rel then List.filter keep_part (Py.split "/" rel)
        else if keep_part rel then [rel] else [] in
      if Urllib.nonempty drv || Urllib.nonempty root
      then (drv +:+ root) :: parsed else parsed
  end.

Definition parts (p : string) : list string := parse_parts p.

End Pathlib.

(** ** [sync.py] *)

Definition UNWANTED_URL_PATH_PARTS : list string :=
  ["atom"; "feed"; "index.html"; "index.php"; "index.php5"; "rss"; "rss.xml"].

(** [while unwanted in path: path.remove(unwanted)]: every round drops one
    element, so [length path] rounds are enough. *)
Fixpoint remove_while (rounds : nat) (unwanted : string) (path : list string)
  : list string :=
  match rounds with
  | 0 => path
  | S rounds' =>
      if Py.mem unwanted path
      then remove_while rounds' unwanted (Py.list_remove unwanted path)
      else path
  end.

(** The loop over the set, in the iteration order [order]. *)
Definition remove_unwanted (order : list string) (path : list string)
  : list string :=
  fold_left (fun path unwanted => remove_while (length path) unwanted path)
    order path.

(** Lines 95 to 99: the path of the parsed URL, cleaned. *)
Definition clean_path_in (order : list string) (p : string) : string :=
  let path := Pathlib.parts p in
  let path := remove_unwanted order path in
  Py.strip Pathlib.is_sep (Py.join "/" path).

Definition clean_path : string -> string :=
  clean_path_in UNWANTED_URL_PATH_PARTS.

Definition feed_query (path : string) : string :=
  if Py.endswith path "rss.php" then "mode=links&do=rss" else "do=rss".

Definition or_slash (path : string) : string :=
  match path with EmptyString => "/" | _ => path end.

(** [parts._replace(path=path or "/", query=query)]. *)
Definition sanitize_parts (parts : Urllib.ParseResult) : Urllib.ParseResult :=
  let path := clean_path (Urllib.path parts) in
  let query := feed_query path in
  Urllib.mkParse (Urllib.scheme parts) (Urllib.netloc parts) (or_slash path)
    (Urllib.params parts) query (Urllib.fragment parts).

(** *** Feed sources and local lists *)

(** A value met where [sanitize_url] expects a string: a string, another
    falsy value ([not url] holds, so [""] is returned), or another truthy
    value (on which [urlparse] raises). *)
Inductive pyval :=
  | Str (s : string)
  | Falsy
  | Truthy.

(** How [urlopen(url).read()] ends. *)
Inductive read_outcome :=
  | ReadAll (data : string)
  | IncompleteRead (partial : string)
  | ReadError.

Definition URLS : list (string * string) :=
  [("json", "https://www.ecirtam.net/shaarli-api/feeds?full=1");
   ("json", "https://flow.2038.net/api/feeds?full=1");
   ("json", "https://links.shikiryu.com/api/feeds?full=1");
   ("opml", "https://links.shikiryu.com/api/feeds?format=opml")].

Definition MANUAL : string := "manual.json".
Definition BAD : string := "bad.json".
Definition SHAARLIS : string := "shaarlis.json".

(** [re.findall(r'xmlUrl="([^"]+)"', text)]: at each position, the literal
    [xmlUrl="], the longest run without a quote (not empty), a quote; the
    scan resumes after the closing quote. *)
Definition dquote : ascii := "034"%char.

Definition xmlUrl_open : string := "xmlUrl=" +:+ String dquote EmptyString.

Fixpoint span_until (c : ascii) (s : string) : string * string :=
  match s with
  | EmptyString => (EmptyString, EmptyString)
  | String d r =>
      if Ascii.eqb c d then (EmptyString, s)
      else let '(a, b) := span_until c r in (String d a, b)
  end.

Fixpoint findall_xmlUrl_scan (fuel : nat) (s : string) : list string :=
  match fuel with
  | 0 => []
  | S fuel' =>
      match s with
      | EmptyString => []
      | String _ r =>
          if String.prefix xmlUrl_open s then
            match span_until dquote (Py.drop (String.length xmlUrl_open) s) with
            | (String _ _ as run, String _ after) =>
                run :: findall_xmlUrl_scan fuel' after
            | _ => findall_xmlUrl_scan fuel' r
            end
          else findall_xmlUrl_scan fuel' r
      end
  end.

Definition findall_xmlUrl (text : string) : list string :=
  findall_xmlUrl_scan (String.length text) text.

Section Sync.

Variable _check_bracketed_host : string -> bool.

(** The world outside the program: [json.loads] followed by the iteration
    the caller runs on its result, [bytes.decode], the network and the
    files.  [None] is a raised exception. *)
Variable json_feed_urls : string -> option (list pyval).
Variable json_items : string -> option (list pyval).
Variable decode : string -> option string.
Variable urlopen_read : string -> read_outcome.
Variable read_text : string -> option string.

Definition sanitize_url (url : string) : option string :=
  match url with
  | EmptyString => Some EmptyString
  | _ =>
      match Urllib.urlparse _check_bracketed_host url with
      | None => None
      | Some parts => Some (Urllib.urlunparse (sanitize_parts parts))
      end
  end.

Definition sanitize_value (v : pyval) : option string :=
  match v with
  | Str s => sanitize_url s
  | Falsy => Some EmptyString
  | Truthy => None
  end.

(** [{sanitize_url(url) for url in urls}]. *)
Definition sanitize_all (urls : list pyval) : option (gset string) :=
  list_to_set <$> mapM sanitize_value urls.

(** The [try] block of [get_dynamic_feeds]. *)
Definition fetch (url : string) : option string :=
  match urlopen_read url with
  | ReadAll data => Some data
  | IncompleteRead partial => Some partial
  | ReadError => None
  end.

(** The [match kind] block; a [kind] that matches no case leaves [urls]
    unbound, which raises at its use. *)
Definition extract (kind : string) (data : string) : option (list pyval) :=
  if String.eqb kind "json" then json_feed_urls data
  else if String.eqb kind "opml" then
    text ← decode data; Some (Str <$> findall_xmlUrl text)
  else None.

Definition get_dynamic_feeds (kind url : string) : option (gset string) :=
  data ← fetch url;
  urls ← extract kind data;
  sanitize_all urls.

Definition load_feeds (file : string) : option (gset string) :=
  text ← read_text file;
  urls ← json_items text;
  sanitize_all urls.

Definition get_bad_feeds : option (gset string) := load_feeds BAD.
Definition get_current_feeds : option (gset string) := load_feeds SHAARLIS.
Definition get_manual_feeds : option (gset string) := load_feeds MANUAL.

(** The loop [for kind, url in URLS: new_feeds.update(...)]. *)
Fixpoint update_all (sources : list (string * string)) (new_feeds : gset string)
  : option (gset string) :=
  match sources with
  | [] => Some new_feeds
  | (kind, url) :: rest =>
      found ← get_dynamic_feeds kind url;
      update_all rest (new_feeds ∪ found)
  end.

End Sync.

(** Lines 142 to 153.  The standard output is the list of its lines; the
    loop state is that list and the counter [new].  A Python set has no
    specified iteration order: [elements] stands for the one met. *)
Definition keep_feed (current_feeds : gset string) (feed_url : string) : bool :=
  Urllib.nonempty feed_url
  && negb (bool_decide (Py.replace "http:" "https:" feed_url ∈ current_feeds))
  && negb (bool_decide (Py.replace "https:" "http:" feed_url ∈ current_feeds)).

Definition feed_line (feed_url : string) : string :=
  String dquote feed_url +:+ String dquote ",".

Definition report_step (current_feeds : gset string)
    (st : list string * nat) (feed_url : string) : list string * nat :=
  if keep_feed current_feeds feed_url
  then (st.1 ++ [feed_line feed_url], S st.2)
  else st.

Definition count_line (new : nat) : string := "+ " +:+ pretty new.

Definition report (current_feeds new_feeds bad_feeds : gset string)
  : list string :=
  let diff := new_feeds ∖ current_feeds ∖ bad_feeds in
  let '(out, new) := fold_left (report_step current_feeds) (elements diff) ([], 0) in
  out ++ [count_line new].

(** [new_feeds] after [update] with each discovered set in turn. *)
Definition merged (manual : gset string) (discovered : list (gset string))
  : gset string :=
  fold_left (∪) discovered manual.

Section Main.

Variable _check_bracketed_host : string -> bool.
Variable json_feed_urls : string -> option (list pyval).
Variable json_items : string -> option (list pyval).
Variable decode : string -> option string.
Variable urlopen_read : string -> read_outcome.
Variable read_text : string -> option string.

Definition main : option (list string) :=
  current_feeds ← get_current_feeds _check_bracketed_host json_items read_text;
  new_feeds ← get_manual_feeds _check_bracketed_host json_items read_text;
  bad_feeds ← get_bad_feeds _check_bracketed_host json_items read_text;
  new_feeds ←
    update_all _check_bracketed_host json_feed_urls decode urlopen_read
      URLS new_feeds;
  Some (report current_feeds new_feeds bad_feeds).

End Main.

(** * Notions used in the statements *)

(** The test "is not [c]". *)
Definition isnt (c : ascii) : ascii -> bool := fun d => negb (Ascii.eqb c d).

(** [old] has no border: no proper non-empty suffix of it is a prefix of
    it, so two occurrences of [old] never overlap. *)
Definition unbordered (old : string) : bool :=
  forallb (fun k => negb (String.prefix (Py.drop k old) old))
    (seq 1 (String.length old - 1)).

Definition isnt_str (x : string) : string -> bool :=
  fun y => negb (String.eqb x y).

Definition wanted_in (order : list string) (x : string) : bool :=
  negb (Py.mem x order).

(** The root that [parts] puts first, and the segments after it. *)
Definition root_of (p : string) : list string :=
  match p with
  | String c _ =>
      if Pathlib.is_sep c then
        if String.length p - String.length (Py.lstrip Pathlib.is_sep p) =? 2
        then ["//"] else ["/"]
      else []
  | EmptyString => []
  end.

Definition segments (p : string) : list string :=
  List.filter Pathlib.keep_part (Py.split "/" (Py.lstrip Pathlib.is_sep p)).

Definition good_seg (x : string) : bool :=
  Pathlib.keep_part x && negb (Py.contains "/" x).

Definition safe_char (c : ascii) : bool :=
  forallb (fun b => negb (Ascii.eqb b c)) Urllib.unsafe_url_bytes_to_remove.

Definition in_scheme (c : ascii) : bool := Py.contains c Urllib.scheme_chars.

(** A scheme as [urlsplit] returns it when it finds one. *)
Definition valid_scheme (s : string) : bool :=
  match s with
  | String c _ =>
      Py.is_ascii_alpha c && Py.all in_scheme s && String.eqb (Py.lower s) s
  | EmptyString => false
  end.

(** [s] with every [b] deleted. *)
Fixpoint delete (b : ascii) (s : string) : string :=
  match s with
  | EmptyString => EmptyString
  | String c r => if Ascii.eqb b c then delete b r else String c (delete b r)
  end.

(** The delimiters that end a netloc, and the index of the first one. *)
Definition is_delim (c : ascii) : bool :=
  Ascii.eqb "/" c || Ascii.eqb "?" c || Ascii.eqb "#" c.

Definition no_delim (c : ascii) : bool := negb (is_delim c).

Fixpoint first_delim (s : string) : nat :=
  match s with
  | EmptyString => 0
  | String c r => if is_delim c then 0 else S (first_delim r)
  end.

Definition starts_delim (s : string) : bool :=
  match s with
  | EmptyString => true
  | String c _ => is_delim c
  end.

(** [urlunsplit] writes [//] and the netloc. *)
Definition hierarchical (scheme netloc : string) : bool :=
  Urllib.nonempty netloc
  || (Urllib.nonempty scheme && Py.mem scheme Urllib.uses_netloc).

Definition colon_part (scheme : string) : string :=
  if Urllib.nonempty scheme then scheme +:+ ":" else "".

Definition slashes_part (scheme netloc : string) : string :=
  if hierarchical scheme netloc then "//" +:+ netloc else "".

Definition semi_part (params : string) : string :=
  if Urllib.nonempty params then ";" +:+ params else "".

Definition starts_sep (url : string) : bool :=
  match url with
  | String c _ => Pathlib.is_sep c
  | EmptyString => false
  end.

(** The path that [urlunsplit] writes for [url]. *)
Definition rooted (scheme netloc url : string) : string :=
  if hierarchical scheme netloc && negb (starts_sep url)
  then "/" +:+ url else url.

Definition hash_part (fragment : string) : string :=
  if Urllib.nonempty fragment then "#" +:+ fragment else "".

(** What [urlsplit] and [urlparse] establish about their result. *)
Record split_ok (chk : string -> bool) (r : Urllib.SplitResult) : Prop := {
  ok_scheme :
    Urllib.s_scheme r = "" \/ valid_scheme (Urllib.s_scheme r) = true;
  ok_netloc : Py.all no_delim (Urllib.s_netloc r) = true;
  ok_checked : Urllib.netloc_ok chk (Urllib.s_netloc r) = true;
  ok_url_q : Py.contains "?" (Urllib.s_url r) = false;
  ok_url_f : Py.contains "#" (Urllib.s_url r) = false;
  ok_query_f : Py.contains "#" (Urllib.s_query r) = false
}.

Record parse_ok (chk : string -> bool) (r : Urllib.ParseResult) : Prop := {
  pok_scheme : Urllib.scheme r = "" \/ valid_scheme (Urllib.scheme r) = true;
  pok_netloc : Py.all no_delim (Urllib.netloc r) = true;
  pok_checked : Urllib.netloc_ok chk (Urllib.netloc r) = true;
  pok_path_q : Py.contains "?" (Urllib.path r) = false;
  pok_path_f : Py.contains "#" (Urllib.path r) = false;
  pok_params_q : Py.contains "?" (Urllib.params r) = false;
  pok_params_f : Py.contains "#" (Urllib.params r) = false;
  pok_params_s : Py.contains "/" (Urllib.params r) = false;
  pok_params_scheme :
    Urllib.params r <> "" ->
    Py.mem (Urllib.scheme r) Urllib.uses_params = true;
  pok_safe_netloc : Py.all safe_char (Urllib.netloc r) = true;
  pok_safe_path : Py.all safe_char (Urllib.path r) = true;
  pok_safe_params : Py.all safe_char (Urllib.params r) = true;
  pok_safe_fragment : Py.all safe_char (Urllib.fragment r) = true
}.

(** The path and parameters that [sanitize_url] hands to [urlunsplit]. *)
Definition canonical_body (r : Urllib.ParseResult) : string :=
  or_slash (clean_path (Urllib.path r)) +:+ semi_part (Urllib.params r).

(** The spec's "absolute URL", read as: [urlsplit] finds a scheme. *)
Definition absolute_url (chk : string -> bool) (url : string) : bool :=
  match Urllib.urlsplit chk url with
  | Some r => Urllib.nonempty (Urllib.s_scheme r)
  | None => false
  end.

(** A payload cut in the middle of its second entry, and a host check that
    accepts every bracketed host: the inputs of the closed instances. *)
Definition truncated_opml : string :=
  "<outline xmlUrl=" +:+ String dquote "https://example.org/feed/rss"
  +:+ String dquote " /><outline xmlUrl=" +:+ String dquote "https://exam".

Definition accept_all : string -> bool := fun _ => true.

(** The segments that survive the removal loop. *)
Definition kept_segments (p : string) : list string :=
  List.filter (wanted_in UNWANTED_URL_PATH_PARTS) (segments p).

(** Two cleaned paths put end to end. *)
Definition path_join (x y : string) : string :=
  match x, y with
  | EmptyString, _ => y
  | _, EmptyString => x
  | _, _ => x +:+ "/" +:+ y
  end.

(** [urlsplit] after its scheme stage, on the scheme and the rest found. *)
Definition urlsplit_tail (chk : string -> bool) (scheme url : string)
  : option Urllib.SplitResult :=
  match Urllib.split_netloc url with
  | (netloc, url) =>
      if negb (Urllib.netloc_ok chk netloc) then None
      else
        match Urllib.split_once "#" url with
        | (url, fragment) =>
            match Urllib.split_once "?" url with
            | (url, query) =>
                Some (Urllib.mkSplit scheme netloc url query fragment)
            end
        end
  end.

(** [urlparse] after [urlsplit], on the result of the latter. *)
Definition params_stage (r : Urllib.SplitResult) : Urllib.ParseResult :=
  match (if Py.mem (Urllib.s_scheme r) Urllib.uses_params
            && Py.contains ";" (Urllib.s_url r)
         then Urllib._splitparams (Urllib.s_url r)
         else (Urllib.s_url r, EmptyString)) with
  | (url, params) =>
      Urllib.mkParse (Urllib.s_scheme r) (Urllib.s_netloc r) url params
        (Urllib.s_query r) (Urllib.s_fragment r)
  end.

(** The tab, carriage return and line feed deleted, as [urlsplit] does. *)
Definition delete_unsafe (s : string) : string :=
  delete "010" (delete "013" (delete "009" s)).

(** The doctests of [sanitize_url] that the code passes: every one but that
    of lines 81 and 82. *)
Definition passing_doctests : list (string * string) :=
  [("https://example.org/?do=atom", "https://example.org/?do=rss");
   ("https://example.org/?do=rss", "https://example.org/?do=rss");
   ("https://example.org/feed/atom", "https://example.org/?do=rss");
   ("https://example.org/feed/rss", "https://example.org/?do=rss");
   ("https://example.org/feed/rss?do=atom", "https://example.org/?do=rss");
   ("https://example.org/feed/rss?do=rss", "https://example.org/?do=rss");
   ("https://example.org/shaarli/?do=atom", "https://example.org/shaarli?do=rss");
   ("https://example.org/shaarli/?do=rss", "https://example.org/shaarli?do=rss");
   ("https://example.org/shaarli/feed/atom", "https://example.org/shaarli?do=rss");
   ("https://example.org/shaarli/feed/rss", "https://example.org/shaarli?do=rss");
   ("https://example.org/shaarli/feed/rss?do=atom",
    "https://example.org/shaarli?do=rss");
   ("https://example.org/shaarli/feed/rss?do=rss",
    "https://example.org/shaarli?do=rss");
   ("https://example.org/rss.php?mode=links&do=rss",
    "https://example.org/rss.php?mode=links&do=rss");
   ("", "");
   ("https://example.org//?do=rss", "https://example.org/?do=rss");
   ("https://example.org//feed?do=rss", "https://example.org/?do=rss");
   ("https://example.org/?do=rss?", "https://example.org/?do=rss");
   ("https://example.org/index.php?do=rss&", "https://example.org/?do=rss");
   ("https://example.org/index.php5?do=rss", "https://example.org/?do=rss");
   ("https://example.org/rss.xml", "https://example.org/?do=rss");
   ("https://example.org/?kw=computer%20services", "https://example.org/?do=rss");
   ("https://example.org/carnet.atom", "https://example.org/carnet.atom?do=rss")].

(** The text between the first [?] of a URL and the [#] that follows it. *)
Definition query_text (url : string) : string :=
  let '(_, _, rest) := Py.partition "?" url in
  (Py.partition "#" rest).1.1.

(** What the pattern captures: a text that is not empty and has no quote. *)
Definition quotable (u : string) : bool :=
  Urllib.nonempty u && negb (Py.contains dquote u).

(** No match of the opening literal starts at one of the first [n]
    positions of [s]. *)
Definition no_opening_before (n : nat) (s : string) : bool :=
  forallb (fun k => negb (String.prefix xmlUrl_open (Py.drop k s))) (seq 0 n).

(** The URLs that [report] writes, in the order it writes them. *)
Definition printed_urls (current_feeds new_feeds bad_feeds : gset string)
  : list string :=
  List.filter (keep_feed current_feeds)
    (elements (new_feeds ∖ current_feeds ∖ bad_feeds)).

(** [old] occurs somewhere in [s]. *)
Fixpoint occurs (old s : string) : bool :=
  match s with
  | EmptyString => false
  | String _ r => String.prefix old s || occurs old r
  end.




(** The values that [get_dynamic_feeds] hands to [sanitize_url] for a
    payload [data]: for [json] what [json.loads] and the generator give,
    for [opml] the matches of the regular expression in the decoded
    bytes. *)
Definition extracted_from
    (json_feed_urls : string -> option (list pyval))
    (decode : string -> option string)
    (kind data : string) (urls : list pyval) : Prop :=
  (kind = "json" /\ json_feed_urls data = Some urls)
  \/ (kind = "opml"
      /\ exists text,
           decode data = Some text /\ urls = Str <$> findall_xmlUrl text).

(** A well-formed payload whose only address [urlparse] refuses. *)
Definition refused_opml : string :=
  "<outline xmlUrl=" +:+ String dquote "http://[" +:+ String dquote " />".

(** [str.isascii]: every code point is below 128.  [_checknetloc] starts
    with [if not netloc or netloc.isascii(): return]. *)
Definition isascii (s : string) : bool :=
  Py.all (fun c => nat_of_ascii c <? 128) s.

(** * Facts about the string methods *)

Local Arguments String.append : simpl nomatch.

Section StrFacts.

Implicit Types (s t a b : string) (c d : ascii) (p : ascii -> bool).

Lemma app_nil_r s : s +:+ "" = s.
Proof. induction s; simpl; congruence. Qed.

Lemma app_assoc a b t : (a +:+ b) +:+ t = a +:+ b +:+ t.
Proof. induction a; simpl; congruence. Qed.

Lemma length_app a b :
  String.length (a +:+ b) = String.length a + String.length b.
Proof. induction a; simpl; lia. Qed.

Lemma nonempty_true s : Urllib.nonempty s = true <-> s <> "".
Proof. destruct s; simpl; split; congruence. Qed.

Lemma all_app p a b : Py.all p (a +:+ b) = Py.all p a && Py.all p b.
Proof. induction a; simpl; [done|]. rewrite IHa. by rewrite andb_assoc. Qed.

Lemma all_impl p (p' : ascii -> bool) s :
  (forall c, p c = true -> p' c = true) ->
  Py.all p s = true -> Py.all p' s = true.
Proof.
  intros Himp. induction s as [|c s IH]; simpl; [done|].
  rewrite !andb_true_iff. intros [? ?]. split; auto.
Qed.

Lemma contains_isnt c s : Py.contains c s = negb (Py.all (isnt c) s).
Proof.
  induction s as [|d s IH]; simpl; [done|]. unfold isnt at 1.
  destruct (Ascii.eqb c d); simpl; auto.
Qed.

Lemma contains_false c s : Py.contains c s = false <-> Py.all (isnt c) s = true.
Proof. rewrite contains_isnt. destruct (Py.all _ _); simpl; split; congruence. Qed.

Lemma contains_app c a b :
  Py.contains c (a +:+ b) = Py.contains c a || Py.contains c b.
Proof. induction a as [|d a IH]; simpl; [done|]. by destruct (Ascii.eqb c d). Qed.

Lemma all_take p n s : Py.all p s = true -> Py.all p (Py.take n s) = true.
Proof.
  revert n. induction s as [|c s IH]; intros [|n]; simpl; try done.
  rewrite !andb_true_iff. intros [? ?]. auto.
Qed.

Lemma all_drop p n s : Py.all p s = true -> Py.all p (Py.drop n s) = true.
Proof.
  revert n. induction s as [|c s IH]; intros [|n]; simpl; try done.
  rewrite !andb_true_iff. intros [? ?]. auto.
Qed.

Lemma take_drop n s : Py.take n s +:+ Py.drop n s = s.
Proof.
  revert n. induction s as [|c s IH]; intros [|n]; simpl; try done.
  by rewrite IH.
Qed.

Lemma take_app a b : Py.take (String.length a) (a +:+ b) = a.
Proof. induction a; simpl; [by destruct b | congruence]. Qed.

Lemma drop_app a b : Py.drop (String.length a) (a +:+ b) = b.
Proof. induction a; simpl; [by destruct b | congruence]. Qed.

Lemma drop_0 s : Py.drop 0 s = s.
Proof. by destruct s. Qed.

Lemma drop_add n m s : Py.drop (n + m) s = Py.drop m (Py.drop n s).
Proof.
  revert s. induction n as [|n IH]; intros s; simpl.
  - done.
  - destruct s; [by destruct m|]. apply IH.
Qed.

Lemma find_none c s : Py.find c s = None <-> Py.contains c s = false.
Proof.
  induction s as [|d s IH]; simpl; [done|].
  destruct (Ascii.eqb c d); [done|].
  destruct (Py.find c s); simpl; [|tauto].
  split; [done|]. intros H. apply IH in H. done.
Qed.

Lemma find_app_sep c a b :
  Py.contains c a = false ->
  Py.find c (a +:+ String c b) = Some (String.length a).
Proof.
  induction a as [|d a IH]; simpl.
  - by rewrite Ascii.eqb_refl.
  - destruct (Ascii.eqb c d); [done|]. intros H. by rewrite IH.
Qed.

(** What [find] returns splits the text at the first [c]. *)
Lemma find_split c s i :
  Py.find c s = Some i ->
  s = Py.take i s +:+ String c (Py.drop (S i) s)
  /\ Py.contains c (Py.take i s) = false.
Proof.
  revert i. induction s as [|d s IH]; simpl; [done|]. intros i.
  destruct (Ascii.eqb c d) eqn:E.
  - intros [= <-]. apply Ascii.eqb_eq in E as ->. simpl. by rewrite ?drop_0.
  - destruct (Py.find c s) as [j|]; simpl; [|done].
    intros [= <-]. destruct (IH j eq_refl) as [H1 H2]. split.
    + simpl. f_equal. exact H1.
    + simpl. by rewrite E.
Qed.

Lemma partition_app_sep c a b :
  Py.contains c a = false ->
  Py.partition c (a +:+ String c b) = (a, true, b).
Proof.
  intros H. unfold Py.partition. rewrite find_app_sep by done.
  rewrite take_app.
  replace (S (String.length a)) with (String.length a + 1) by lia.
  rewrite drop_add, drop_app. done.
Qed.

Lemma lstrip_all p q s : Py.all q s = true -> Py.all q (Py.lstrip p s) = true.
Proof.
  induction s as [|c s IH]; simpl; [done|].
  destruct (p c); simpl; [|done]. rewrite andb_true_iff. intros [_ ?]. auto.
Qed.

Lemma lstrip_head p c s : p c = false -> Py.lstrip p (String c s) = String c s.
Proof. simpl. by intros ->. Qed.

Lemma lstrip_app_all p a b :
  Py.all p a = true -> Py.lstrip p (a +:+ b) = Py.lstrip p b.
Proof.
  induction a as [|c a IH]; simpl; [done|].
  rewrite andb_true_iff. intros [-> ?]. auto.
Qed.

(** [strip] leaves the empty string or a text with no stripped character
    at either end. *)
Lemma rstrip_head p s c r :
  Py.rstrip p s = String c r -> exists r', s = String c r'.
Proof.
  destruct s as [|d s]; simpl; [done|].
  destruct (Py.rstrip p s); [destruct (p d)|]; intros [= <- _]; eauto.
Qed.

Lemma strip_head p s c r : Py.strip p s = String c r -> p c = false.
Proof.
  unfold Py.strip. intros H. apply rstrip_head in H as [r' H].
  induction s as [|d s IH]; simpl in H; [done|].
  destruct (p d) eqn:E; [auto|]. by injection H as <- _.
Qed.

Lemma rstrip_app_fixed p a b :
  Py.rstrip p b = b -> b <> "" -> Py.rstrip p (a +:+ b) = a +:+ b.
Proof.
  intros Hb Hne. induction a as [|c a IH]; simpl; [done|].
  rewrite IH. destruct (a +:+ b) eqn:E; [|done].
  destruct a; simpl in E; congruence.
Qed.

Lemma rstrip_none p s : Py.all (fun c => negb (p c)) s = true -> Py.rstrip p s = s.
Proof.
  induction s as [|c s IH]; simpl; [done|].
  rewrite andb_true_iff, negb_true_iff. intros [Hc Hs]. rewrite IH by done.
  destruct s; by rewrite ?Hc.
Qed.

End StrFacts.

(** ** [str.replace] rewrites every occurrence *)

Section ReplaceFacts.

Implicit Types (old new s t a b : string).

Lemma prefix_nil s : String.prefix "" s = true.
Proof. by destruct s. Qed.

Lemma prefix_app old t : String.prefix old (old +:+ t) = true.
Proof.
  induction old as [|c old IH]; simpl; [apply prefix_nil|].
  destruct (ascii_dec c c); [done | congruence].
Qed.

Lemma prefix_split old s :
  String.prefix old s = true -> s = old +:+ Py.drop (String.length old) s.
Proof.
  revert s. induction old as [|c old IH]; intros s; simpl.
  - done.
  - destruct s as [|d s]; simpl; [done|].
    destruct (ascii_dec c d) as [->|]; [|done].
    intros H. f_equal. by apply IH.
Qed.

Lemma prefix_app_l old a b :
  String.prefix old a = true -> String.prefix old (a +:+ b) = true.
Proof.
  intros H. rewrite (prefix_split _ _ H), app_assoc. apply prefix_app.
Qed.

Lemma prefix_take old s n :
  String.length old <= n ->
  String.prefix old (Py.take n s) = String.prefix old s.
Proof.
  revert s n. induction old as [|c old IH]; intros s n Hn.
  { by rewrite !prefix_nil. }
  destruct n as [|n]; simpl in Hn; [lia|]. destruct s as [|d s]; simpl; [done|].
  destruct (ascii_dec c d); [|done]. apply IH. lia.
Qed.

Lemma take_app_le a b n :
  n <= String.length a -> Py.take n (a +:+ b) = Py.take n a.
Proof.
  revert n. induction a as [|c a IH]; intros [|n]; simpl; try done.
  - lia.
  - intros H. f_equal. apply IH. lia.
Qed.

Lemma drop_app_le a b n :
  n <= String.length a -> Py.drop n (a +:+ b) = Py.drop n a +:+ b.
Proof.
  revert n. induction a as [|c a IH]; intros [|n]; simpl; try done.
  - lia.
  - intros H. apply IH. lia.
Qed.

Lemma drop_length n s : String.length (Py.drop n s) = String.length s - n.
Proof.
  revert n. induction s as [|c s IH]; intros [|n]; simpl; done.
Qed.

(** The scan does not depend on its bound, once that is the length. *)
Lemma replace_scan_fuel old new n m s :
  old <> "" -> String.length s <= n -> String.length s <= m ->
  Py.replace_scan n old new s = Py.replace_scan m old new s.
Proof.
  intros Hold. revert m s. induction n as [|n IH]; intros m s Hn Hm.
  - destruct s; simpl in Hn; [|lia]. by destruct m.
  - destruct s as [|c s]; [by destruct m|].
    destruct m as [|m]; [simpl in Hm; lia|].
    cbn [Py.replace_scan]. destruct (String.prefix old (String c s)).
    + f_equal. destruct old as [|o old]; [done|].
      apply IH; rewrite drop_length; simpl in *; lia.
    + f_equal. apply IH; simpl in *; lia.
Qed.

Lemma replace_nil old new : Py.replace old new "" = (match old with "" => new | _ => "" end).
Proof. by destruct old. Qed.

Lemma replace_cons old new c s :
  old <> "" ->
  Py.replace old new (String c s)
  = if String.prefix old (String c s)
    then new +:+ Py.replace old new (Py.drop (String.length old) (String c s))
    else String c (Py.replace old new s).
Proof.
  intros Hold. destruct old as [|o old]; [done|]. unfold Py.replace.
  cbn [String.length Py.replace_scan].
  destruct (String.prefix (String o old) (String c s)).
  - f_equal. apply replace_scan_fuel; [done| |done].
    simpl. rewrite drop_length. lia.
  - done.
Qed.

(** An occurrence of an unbordered [old] never starts before another one
    and runs into it. *)
Lemma no_straddle old a b :
  unbordered old = true -> a <> "" ->
  String.prefix old a = false ->
  String.prefix old (a +:+ old +:+ b) = false.
Proof.
  intros Hub Ha Hpa.
  destruct (String.prefix old (a +:+ old +:+ b)) eqn:Hp; [|done].
  exfalso. destruct (le_lt_dec (String.length old) (String.length a)) as [Hle|Hlt].
  - rewrite <- (prefix_take _ _ (String.length a)) in Hp by done.
    rewrite take_app in Hp. congruence.
  - pose proof (prefix_split _ _ Hp) as E.
    assert (Ea : a = Py.take (String.length a) old).
    { apply (f_equal (Py.take (String.length a))) in E.
      rewrite take_app in E. rewrite take_app_le in E by lia. done. }
    apply (f_equal (Py.drop (String.length a))) in E.
    rewrite drop_app, drop_app_le in E by lia.
    unfold unbordered in Hub. rewrite forallb_forall in Hub.
    specialize (Hub (String.length a)).
    assert (Hin : In (String.length a) (seq 1 (String.length old - 1))).
    { apply in_seq. destruct a; [done|]. simpl in *. lia. }
    apply Hub, negb_true_iff in Hin.
    assert (Hp2 : String.prefix (Py.drop (String.length a) old) (old +:+ b) = true).
    { rewrite E. apply prefix_app. }
    rewrite <- (prefix_take _ _ (String.length old)) in Hp2
      by (rewrite drop_length; lia).
    rewrite take_app in Hp2. congruence.
Qed.

(** Each occurrence of an unbordered [old] is rewritten, wherever it is. *)
Lemma replace_occurrence old new :
  unbordered old = true -> old <> "" ->
  forall a b,
    Py.replace old new (a +:+ old +:+ b)
    = Py.replace old new a +:+ new +:+ Py.replace old new b.
Proof.
  intros Hub Hold a. remember (String.length a) as n eqn:Hn.
  revert a Hn. induction n as [n IH] using lt_wf_ind. intros a Hn b.
  destruct a as [|c a].
  - simpl. rewrite replace_nil. destruct old as [|o old]; [done|].
    simpl String.append. rewrite replace_cons by done.
    change (String o (old +:+ b)) with (String o old +:+ b).
    by rewrite prefix_app, drop_app.
  - change (String c a +:+ old +:+ b) with (String c (a +:+ old +:+ b)).
    rewrite !replace_cons by done.
    change (String c (a +:+ old +:+ b)) with (String c a +:+ old +:+ b).
    destruct (String.prefix old (String c a)) eqn:Hp.
    + rewrite prefix_app_l by done.
      assert (Hlen : String.length old <= String.length (String c a)).
      { rewrite (prefix_split _ _ Hp), length_app. lia. }
      rewrite drop_app_le by done. rewrite app_assoc. f_equal.
      apply (IH (String.length (Py.drop (String.length old) (String c a)))); [|done].
      rewrite drop_length. subst n. destruct old; [done|]. simpl. lia.
    + rewrite no_straddle by done. simpl. f_equal.
      apply (IH (String.length a)); [|done]. subst n. simpl. lia.
Qed.

End ReplaceFacts.

(** * Facts about the path of a URL *)

Section PathFacts.

Implicit Types (x y : string) (l : list string).

Lemma mem_In x l : Py.mem x l = true <-> In x l.
Proof.
  unfold Py.mem. rewrite existsb_exists. split.
  - intros (y & Hy & E). apply String.eqb_eq in E. by subst.
  - intros H. exists x. split; [done|]. apply String.eqb_refl.
Qed.

Lemma mem_false x l : Py.mem x l = false <-> ~ In x l.
Proof.
  rewrite <- mem_In. destruct (Py.mem x l); split; congruence.
Qed.

Lemma list_remove_length x l :
  Py.mem x l = true -> S (length (Py.list_remove x l)) = length l.
Proof.
  induction l as [|y l IH]; simpl; [done|].
  destruct (String.eqb x y); simpl; [done|]. intros H. by rewrite IH.
Qed.

Lemma list_remove_filter x l :
  List.filter (isnt_str x) (Py.list_remove x l) = List.filter (isnt_str x) l.
Proof.
  unfold isnt_str. induction l as [|y l IH]; simpl; [done|].
  destruct (String.eqb x y) eqn:E; simpl; rewrite ?E; simpl; congruence.
Qed.

Lemma filter_not_mem x l :
  Py.mem x l = false -> List.filter (isnt_str x) l = l.
Proof.
  unfold isnt_str. induction l as [|y l IH]; simpl; [done|].
  destruct (String.eqb x y); simpl; [done|]. intros H. by rewrite IH.
Qed.

(** The [while] loop ends within [length path] rounds, with every
    occurrence gone and the rest in place. *)
Lemma remove_while_filter n x l :
  length l <= n -> remove_while n x l = List.filter (isnt_str x) l.
Proof.
  revert l. induction n as [|n IH]; intros l Hn; simpl.
  - destruct l; simpl in *; [done | lia].
  - destruct (Py.mem x l) eqn:E.
    + rewrite IH, list_remove_filter; [done|].
      apply list_remove_length in E. lia.
    + by rewrite filter_not_mem.
Qed.

Lemma remove_unwanted_filter order l :
  remove_unwanted order l = List.filter (wanted_in order) l.
Proof.
  unfold remove_unwanted. revert l.
  induction order as [|x order IH]; intros l; simpl.
  - induction l as [|y l IHl]; simpl; congruence.
  - rewrite remove_while_filter by lia. rewrite IH.
    unfold isnt_str, wanted_in.
    induction l as [|y l IHl]; simpl; [done|].
    rewrite (String.eqb_sym y x).
    destruct (String.eqb x y); simpl; [done|].
    fold (Py.mem y order). destruct (Py.mem y order); simpl; by rewrite IHl.
Qed.

Lemma split_no_sep c s : Py.contains c s = false -> Py.split c s = [s].
Proof.
  induction s as [|d s IH]; simpl; [done|].
  destruct (Ascii.eqb c d); [done|]. intros H. by rewrite IH.
Qed.

Lemma split_elems c s x : In x (Py.split c s) -> Py.contains c x = false.
Proof.
  revert x. induction s as [|d s IH]; simpl; intros x.
  - by intros [<-|[]].
  - destruct (Ascii.eqb c d) eqn:E.
    + intros [<-|H]; [done | auto].
    + destruct (Py.split c s) as [|y ys].
      * intros [<-|[]]. simpl. by rewrite E.
      * intros [<-|H]; [|apply IH; by right].
        simpl. rewrite E. apply IH. by left.
Qed.

Lemma join_cons sep x y l :
  Py.join sep (x :: y :: l) = x +:+ sep +:+ Py.join sep (y :: l).
Proof. done. Qed.

Lemma split_app_sep c a b :
  Py.contains c a = false ->
  Py.split c (a +:+ String c b) = a :: Py.split c b.
Proof.
  induction a as [|d a IH]; simpl.
  - by rewrite Ascii.eqb_refl.
  - destruct (Ascii.eqb c d); [done|]. intros H. by rewrite IH.
Qed.

Lemma split_join c l :
  l <> [] -> Forall (fun x => Py.contains c x = false) l ->
  Py.split c (Py.join (String c "") l) = l.
Proof.
  induction l as [|x l IH]; [done|]. intros _ H.
  inversion H as [|? ? Hx Hl]; subst. destruct l as [|y l].
  - simpl. by apply split_no_sep.
  - rewrite join_cons. change (String c "" +:+ ?t) with (String c t).
    rewrite split_app_sep by done. by rewrite IH.
Qed.

Lemma splitroot_eq p :
  Pathlib.splitroot p =
    ("", match root_of p with r :: _ => r | [] => "" end,
     Py.lstrip Pathlib.is_sep p).
Proof.
  destruct p as [|c p]; [done|]. unfold Pathlib.splitroot, root_of.
  destruct (Pathlib.is_sep c) eqn:E.
  - by destruct (_ =? 2).
  - simpl. by rewrite E.
Qed.

Lemma parts_eq p : Pathlib.parts p = root_of p ++ segments p.
Proof.
  unfold Pathlib.parts, Pathlib.parse_parts, segments.
  destruct p as [|c p]; [done|]. rewrite splitroot_eq.
  set (rel := Py.lstrip Pathlib.is_sep (String c p)).
  assert (Hseg : (if Py.contains "/" rel
                  then List.filter Pathlib.keep_part (Py.split "/" rel)
                  else if Pathlib.keep_part rel then [rel] else [])
                 = List.filter Pathlib.keep_part (Py.split "/" rel)).
  { destruct (Py.contains "/" rel) eqn:E; [done|].
    by rewrite split_no_sep. }
  rewrite Hseg. unfold root_of.
  destruct (Pathlib.is_sep c); [|done]. by destruct (_ =? 2).
Qed.

Lemma segments_good p : Forall (fun x => good_seg x = true) (segments p).
Proof.
  apply List.Forall_forall. intros x Hx. apply filter_In in Hx as [Hin Hk].
  unfold good_seg. rewrite Hk. by rewrite (split_elems _ _ _ Hin).
Qed.

Lemma root_of_seps p : Forall (fun r => Py.all Pathlib.is_sep r = true) (root_of p).
Proof.
  destruct p as [|c p]; simpl; [done|].
  destruct (Pathlib.is_sep c); [|done].
  destruct (_ =? 2); repeat constructor.
Qed.

Lemma good_seg_head x :
  good_seg x = true ->
  exists c r, x = String c r /\ Pathlib.is_sep c = false
              /\ Py.all (fun d => negb (Pathlib.is_sep d)) x = true.
Proof.
  unfold good_seg, Pathlib.keep_part. rewrite !andb_true_iff.
  intros [[Hne _] Hc]. destruct x as [|c r]; [done|]. exists c, r.
  apply negb_true_iff, contains_false in Hc.
  assert (Hall : Py.all (fun d => negb (Pathlib.is_sep d)) (String c r) = true).
  { eapply all_impl; [|exact Hc]. intros d. unfold isnt, Pathlib.is_sep.
    by rewrite Ascii.eqb_sym. }
  split; [done|]. split; [|done]. simpl in Hall.
  apply andb_true_iff in Hall as [H _]. by apply negb_true_iff.
Qed.

Lemma join_good_nonempty l :
  l <> [] -> Forall (fun x => good_seg x = true) l -> Py.join "/" l <> "".
Proof.
  destruct l as [|x l]; [done|]. intros _ H. inversion H as [|? ? Hx _]; subst.
  apply good_seg_head in Hx as (c & r & -> & _). by destruct l.
Qed.

Lemma rstrip_join l :
  Forall (fun x => good_seg x = true) l ->
  Py.rstrip Pathlib.is_sep (Py.join "/" l) = Py.join "/" l.
Proof.
  induction l as [|x l IH]; [done|]. intros H.
  inversion H as [|? ? Hx Hl]; subst. destruct l as [|y l].
  - simpl. apply rstrip_none. by apply good_seg_head in Hx as (? & ? & _ & _ & ?).
  - rewrite join_cons, <- app_assoc. apply rstrip_app_fixed; [by apply IH|].
    by apply join_good_nonempty.
Qed.

Lemma strip_join l :
  Forall (fun x => good_seg x = true) l ->
  Py.strip Pathlib.is_sep (Py.join "/" l) = Py.join "/" l.
Proof.
  intros H. unfold Py.strip.
  assert (Hl : Py.lstrip Pathlib.is_sep (Py.join "/" l) = Py.join "/" l).
  { destruct l as [|x l]; [done|]. inversion H as [|? ? Hx _]; subst.
    apply good_seg_head in Hx as (c & r & -> & Hc & _).
    destruct l; simpl; by rewrite Hc. }
  rewrite Hl. by apply rstrip_join.
Qed.

Lemma strip_join_root roots l :
  Forall (fun r => Py.all Pathlib.is_sep r = true) roots ->
  Forall (fun x => good_seg x = true) l ->
  Py.strip Pathlib.is_sep (Py.join "/" (roots ++ l)) = Py.join "/" l.
Proof.
  intros Hr Hl. induction Hr as [|r roots Hr _ IH]; simpl app.
  - by apply strip_join.
  - destruct (roots ++ l) as [|y rest] eqn:E.
    + destruct roots; [|done]. simpl in E. subst l. simpl.
      unfold Py.strip. rewrite <- (app_nil_r r) at 1.
      rewrite lstrip_app_all by done. done.
    + rewrite join_cons. unfold Py.strip in *.
      rewrite lstrip_app_all by done.
      change ("/" +:+ ?t) with (String "/" t). simpl Py.lstrip. exact IH.
Qed.

Lemma clean_path_in_eq order p :
  clean_path_in order p = Py.join "/" (List.filter (wanted_in order) (segments p)).
Proof.
  unfold clean_path_in. rewrite remove_unwanted_filter, parts_eq, List.filter_app.
  apply strip_join_root.
  - apply List.Forall_forall. intros r Hr. apply filter_In in Hr as [Hr _].
    revert r Hr. apply List.Forall_forall, root_of_seps.
  - apply List.Forall_forall. intros x Hx. apply filter_In in Hx as [Hx _].
    revert x Hx. apply List.Forall_forall, segments_good.
Qed.

Lemma lstrip_join l :
  Forall (fun x => good_seg x = true) l ->
  Py.lstrip Pathlib.is_sep (Py.join "/" l) = Py.join "/" l.
Proof.
  intros H. destruct l as [|x l]; [done|]. inversion H as [|? ? Hx _]; subst.
  apply good_seg_head in Hx as (c & r & -> & Hc & _).
  destruct l; simpl; by rewrite Hc.
Qed.

Lemma filter_fixed (f : string -> bool) l :
  Forall (fun x => f x = true) l -> List.filter f l = l.
Proof. induction 1 as [|x l Hx _ IH]; simpl; [done|]. by rewrite Hx, IH. Qed.

Lemma good_no_sep l :
  Forall (fun x => good_seg x = true) l ->
  Forall (fun x => Py.contains "/" x = false) l.
Proof.
  apply List.Forall_impl. intros x. unfold good_seg.
  rewrite andb_true_iff, negb_true_iff. tauto.
Qed.

Lemma segments_join lead l :
  lead = "" \/ lead = "/" ->
  Forall (fun x => good_seg x = true) l ->
  segments (lead +:+ Py.join "/" l) = l.
Proof.
  intros Hlead Hl. unfold segments.
  rewrite lstrip_app_all by (by destruct Hlead as [-> | ->]).
  rewrite lstrip_join by done. destruct l as [|x l]; [done|].
  rewrite split_join; [|done|by apply good_no_sep].
  apply filter_fixed. revert Hl. apply List.Forall_impl. intros y.
  unfold good_seg. rewrite andb_true_iff. tauto.
Qed.

Lemma kept_good order p :
  Forall (fun x => good_seg x = true) (List.filter (wanted_in order) (segments p)).
Proof.
  apply List.Forall_forall. intros x Hx. apply filter_In in Hx as [Hx _].
  revert x Hx. apply List.Forall_forall, segments_good.
Qed.

(** Cleaning a cleaned path again, with or without a leading slash, changes
    nothing. *)
Lemma clean_path_again order lead p :
  lead = "" \/ lead = "/" ->
  clean_path_in order (lead +:+ clean_path_in order p) = clean_path_in order p.
Proof.
  intros Hlead. rewrite !clean_path_in_eq.
  rewrite segments_join; [|done|apply kept_good]. f_equal.
  apply filter_fixed, List.Forall_forall. intros x Hx.
  by apply filter_In in Hx as [_ Hx].
Qed.

(** Every character of the cleaned path is a slash or comes from the path. *)
Lemma join_all (q : ascii -> bool) l :
  q "/"%char = true -> Forall (fun x => Py.all q x = true) l ->
  Py.all q (Py.join "/" l) = true.
Proof.
  intros Hq. induction 1 as [|x l Hx Hl IH]; [done|]. destruct l as [|y l].
  - done.
  - rewrite join_cons, !all_app, Hx, IH. simpl. by rewrite Hq.
Qed.

Lemma split_all (q : ascii -> bool) c s :
  Py.all q s = true -> Forall (fun x => Py.all q x = true) (Py.split c s).
Proof.
  induction s as [|d s IH]; simpl.
  - by repeat constructor.
  - rewrite andb_true_iff. intros [Hd Hs]. specialize (IH Hs).
    destruct (Ascii.eqb c d).
    + by constructor.
    + destruct (Py.split c s) as [|y ys].
      * repeat constructor. simpl. by rewrite Hd.
      * inversion IH; subst. constructor; [|done]. simpl. by rewrite Hd.
Qed.

Lemma clean_path_all (q : ascii -> bool) order p :
  q "/"%char = true -> Py.all q p = true ->
  Py.all q (or_slash (clean_path_in order p)) = true.
Proof.
  intros Hq Hp.
  assert (H : Py.all q (clean_path_in order p) = true).
  { rewrite clean_path_in_eq. apply join_all; [done|].
    apply List.Forall_forall. intros x Hx. apply filter_In in Hx as [Hx _].
    apply filter_In in Hx as [Hx _]. revert x Hx. apply List.Forall_forall.
    apply split_all. by apply lstrip_all. }
  destruct (clean_path_in order p); simpl in *; [by rewrite Hq | done].
Qed.

Lemma or_slash_head p c r :
  or_slash (clean_path p) = String c r ->
  (Pathlib.is_sep c = true /\ r = "" /\ clean_path p = "")
  \/ (Pathlib.is_sep c = false /\ clean_path p = String c r).
Proof.
  unfold clean_path, clean_path_in.
  destruct (Py.strip _ _) as [|d t] eqn:E; simpl.
  - intros [= <- <-]. by left.
  - intros [= <- <-]. right. split; [|done]. by apply strip_head in E.
Qed.

End PathFacts.

(** * Facts about [urlsplit], stage by stage *)

Section SchemeFacts.

Implicit Types (s t u a rest : string) (c b : ascii).

Ltac each_char c :=
  destruct c as [[] [] [] [] [] [] [] []]; vm_compute;
  try (intros; first [reflexivity | discriminate | (repeat split; reflexivity)]).

Lemma lower_alpha c :
  Py.is_ascii_alpha c = true -> Py.is_ascii_alpha (Py.lower_char c) = true.
Proof. each_char c. Qed.

Lemma lower_in_scheme c :
  in_scheme c = true -> in_scheme (Py.lower_char c) = true.
Proof. each_char c. Qed.

Lemma lower_lower c : Py.lower_char (Py.lower_char c) = Py.lower_char c.
Proof. each_char c. Qed.

Lemma in_scheme_safe c : in_scheme c = true -> safe_char c = true.
Proof. each_char c. Qed.

Lemma alpha_not_space c :
  Py.is_ascii_alpha c = true -> Urllib.whatwg_c0_control_or_space c = false.
Proof. each_char c. Qed.

Lemma replace_delete b s : Py.replace (String b "") "" s = delete b s.
Proof.
  induction s as [|c s IH]; [done|]. rewrite replace_cons by done.
  cbn [String.prefix delete]. rewrite prefix_nil.
  destruct (ascii_dec b c) as [->|Hne].
  - rewrite Ascii.eqb_refl. simpl. exact IH.
  - apply Ascii.eqb_neq in Hne. rewrite Hne. by rewrite IH.
Qed.

Lemma delete_all (q : ascii -> bool) b s :
  Py.all q s = true -> Py.all q (delete b s) = true.
Proof.
  induction s as [|c s IH]; simpl; [done|].
  rewrite andb_true_iff. intros [Hc Hs].
  destruct (Ascii.eqb b c); simpl; rewrite ?Hc; auto.
Qed.

Lemma delete_isnt b s : Py.all (isnt b) (delete b s) = true.
Proof.
  induction s as [|c s IH]; simpl; [done|].
  destruct (Ascii.eqb b c) eqn:E; simpl; [done|]. unfold isnt at 1.
  by rewrite E.
Qed.

Lemma delete_id b s : Py.all (isnt b) s = true -> delete b s = s.
Proof.
  induction s as [|c s IH]; simpl; [done|]. unfold isnt at 1.
  destruct (Ascii.eqb b c); simpl; [done|]. intros H. by rewrite IH.
Qed.

Lemma strip_unsafe_eq u :
  Urllib.strip_unsafe u
  = delete "010" (delete "013" (delete "009"
      (Py.lstrip Urllib.whatwg_c0_control_or_space u))).
Proof.
  unfold Urllib.strip_unsafe, Urllib.unsafe_url_bytes_to_remove.
  cbn [fold_left]. by rewrite !replace_delete.
Qed.

Lemma safe_char_spec c :
  safe_char c = isnt "009" c && (isnt "013" c && (isnt "010" c && true)).
Proof. done. Qed.

Lemma all_safe s :
  Py.all safe_char s
  = Py.all (isnt "009") s && Py.all (isnt "013") s && Py.all (isnt "010") s.
Proof.
  induction s as [|c s IH]; simpl; [done|]. rewrite IH, safe_char_spec.
  destruct (isnt "009" c), (isnt "013" c), (isnt "010" c),
    (Py.all (isnt "009") s), (Py.all (isnt "013") s); done.
Qed.

Lemma strip_unsafe_safe u : Py.all safe_char (Urllib.strip_unsafe u) = true.
Proof.
  rewrite strip_unsafe_eq, all_safe, !andb_true_iff. repeat split.
  - apply delete_all, delete_all, delete_isnt.
  - apply delete_all, delete_isnt.
  - apply delete_isnt.
Qed.

Lemma strip_unsafe_id c r :
  Urllib.whatwg_c0_control_or_space c = false ->
  Py.all safe_char (String c r) = true ->
  Urllib.strip_unsafe (String c r) = String c r.
Proof.
  intros Hc Hs. rewrite strip_unsafe_eq, lstrip_head by done.
  rewrite all_safe, !andb_true_iff in Hs. destruct Hs as [[H1 H2] H3].
  rewrite (delete_id "009"), (delete_id "013"), (delete_id "010"); done.
Qed.

Lemma lower_fixed s : Py.lower (Py.lower s) = Py.lower s.
Proof. induction s as [|c s IH]; simpl; [done|]. by rewrite lower_lower, IH. Qed.

Lemma lower_all_in_scheme s :
  Py.all in_scheme s = true -> Py.all in_scheme (Py.lower s) = true.
Proof.
  induction s as [|c s IH]; simpl; [done|]. rewrite !andb_true_iff.
  intros [Hc Hs]. split; [by apply lower_in_scheme | auto].
Qed.

Lemma split_scheme_spec u s rest :
  Urllib.split_scheme u = (s, rest) ->
  (s = "" /\ rest = u)
  \/ (valid_scheme s = true /\ exists i, rest = Py.drop i u).
Proof.
  unfold Urllib.split_scheme.
  destruct (Py.find ":" u) as [[|i]|] eqn:Ef; try (intros [= <- <-]; by left).
  destruct u as [|c0 u]; [intros [= <- <-]; by left|].
  destruct (Py.is_ascii_alpha c0 && _) eqn:E; [|intros [= <- <-]; by left].
  intros [= <- <-]. right. split; [|exists (S (S i)); reflexivity].
  apply andb_true_iff in E as [Ha Hs]. cbn [Py.take Py.lower valid_scheme] in *.
  rewrite lower_alpha by done. cbn [Py.all] in *.
  apply andb_true_iff in Hs as [Hc Hs].
  rewrite lower_in_scheme, lower_all_in_scheme by done.
  rewrite lower_lower, lower_fixed. by rewrite String.eqb_refl.
Qed.

Lemma valid_scheme_plain s c :
  valid_scheme s = true -> in_scheme c = false ->
  Py.contains c s = false.
Proof.
  destruct s as [|c0 s]; [done|]. unfold valid_scheme.
  rewrite !andb_true_iff. intros [[_ H] _] Hc. apply contains_false.
  eapply all_impl; [|exact H]. intros d Hd. unfold isnt.
  destruct (Ascii.eqb c d) eqn:E; [|done].
  apply Ascii.eqb_eq in E as ->. congruence.
Qed.

Lemma split_scheme_valid s rest :
  valid_scheme s = true ->
  Urllib.split_scheme (s +:+ ":" +:+ rest) = (s, rest).
Proof.
  intros Hv. pose proof (valid_scheme_plain s ":" Hv eq_refl) as Hcolon.
  unfold Urllib.split_scheme.
  change (":" +:+ rest) with (String ":" rest).
  rewrite find_app_sep by done.
  destruct s as [|c0 s]; [done|]. cbn [String.length String.append].
  change (String c0 (s +:+ String ":" rest))
    with (String c0 s +:+ String ":" rest).
  replace (S (String.length s)) with (String.length (String c0 s)) by done.
  rewrite take_app.
  unfold valid_scheme in Hv. rewrite !andb_true_iff in Hv.
  destruct Hv as [[Ha Hs] Hl].
  change (fun c => Py.contains c Urllib.scheme_chars) with in_scheme.
  rewrite Ha, Hs. cbn [andb].
  apply String.eqb_eq in Hl. rewrite Hl. f_equal.
  replace (S (String.length (String c0 s)))
    with (String.length (String c0 s) + 1) by lia.
  by rewrite drop_add, drop_app.
Qed.

End SchemeFacts.

Section NetlocFacts.

Implicit Types (s t u a b n rest : string) (c : ascii).

Lemma find_cons c d s :
  Py.find c (String d s)
  = if Ascii.eqb c d then Some 0 else option_map S (Py.find c s).
Proof. done. Qed.

Lemma first_delim_min t :
  fold_left
    (fun delim c =>
       match Py.find c t with
       | Some wdelim => Nat.min delim wdelim
       | None => delim
       end)
    ["/"; "?"; "#"]%char (String.length t)
  = first_delim t.
Proof.
  cbn [fold_left]. induction t as [|d t IH]; [done|].
  cbn [String.length first_delim]. rewrite !find_cons. unfold is_delim.
  destruct (Ascii.eqb "/" d), (Ascii.eqb "?" d), (Ascii.eqb "#" d);
    cbn [orb]; try lia;
    try (destruct (Py.find "/" t), (Py.find "?" t), (Py.find "#" t);
         cbn [option_map] in *; lia).
Qed.

Lemma splitnetloc_eq t :
  Urllib._splitnetloc (String "/" (String "/" t)) 2
  = (Py.take (first_delim t) t, Py.drop (first_delim t) t).
Proof.
  unfold Urllib._splitnetloc.
  set (url := String "/" (String "/" t)).
  assert (Hd : fold_left
                 (fun delim c =>
                    match Py.find_from c 2 url with
                    | Some wdelim => Nat.min delim wdelim
                    | None => delim
                    end)
                 ["/"; "?"; "#"]%char (String.length url)
               = 2 + first_delim t).
  { rewrite <- first_delim_min. unfold Py.find_from, url.
    cbn [fold_left Py.drop String.length].
    destruct (Py.find "/" t), (Py.find "?" t), (Py.find "#" t);
      cbn [option_map]; lia. }
  rewrite Hd. done.
Qed.

Lemma first_delim_take t : Py.all no_delim (Py.take (first_delim t) t) = true.
Proof.
  induction t as [|d t IH]; [done|]. cbn [first_delim].
  destruct (is_delim d) eqn:E; [done|]. cbn [Py.take Py.all].
  unfold no_delim at 1. by rewrite E.
Qed.

Lemma first_delim_drop t : starts_delim (Py.drop (first_delim t) t) = true.
Proof.
  induction t as [|d t IH]; [done|]. cbn [first_delim].
  destruct (is_delim d) eqn:E; [done|]. exact IH.
Qed.

Lemma first_delim_app n rest :
  Py.all no_delim n = true -> starts_delim rest = true ->
  first_delim (n +:+ rest) = String.length n.
Proof.
  intros Hn Hr. induction n as [|d n IH]; simpl.
  - destruct rest as [|c rest]; [done|]. simpl in *. by rewrite Hr.
  - cbn [Py.all] in Hn. apply andb_true_iff in Hn as [Hd Hn].
    unfold no_delim in Hd. apply negb_true_iff in Hd. rewrite Hd.
    by rewrite IH.
Qed.

Lemma take2_slashes u :
  String.eqb (Py.take 2 u) "//" = true -> exists t, u = String "/" (String "/" t).
Proof.
  intros H. apply String.eqb_eq in H.
  destruct u as [|c1 [|c2 t]]; try done. simpl in H.
  injection H as -> ->. by exists t.
Qed.

Lemma split_netloc_spec u n rest :
  Urllib.split_netloc u = (n, rest) ->
  (n = "" /\ rest = u)
  \/ (u = "//" +:+ n +:+ rest
      /\ Py.all no_delim n = true /\ starts_delim rest = true).
Proof.
  unfold Urllib.split_netloc.
  destruct (String.eqb (Py.take 2 u) "//") eqn:E; [|intros [= <- <-]; by left].
  apply take2_slashes in E as [t ->]. rewrite splitnetloc_eq.
  intros [= <- <-]. right. split; [|split].
  - simpl. by rewrite take_drop.
  - apply first_delim_take.
  - apply first_delim_drop.
Qed.

Lemma split_netloc_compose n rest :
  Py.all no_delim n = true -> starts_delim rest = true ->
  Urllib.split_netloc ("//" +:+ n +:+ rest) = (n, rest).
Proof.
  intros Hn Hr. unfold Urllib.split_netloc.
  change ("//" +:+ n +:+ rest) with (String "/" (String "/" (n +:+ rest))).
  cbn [Py.take].
  rewrite String.eqb_refl, splitnetloc_eq, first_delim_app by done.
  by rewrite take_app, drop_app.
Qed.

Lemma split_netloc_all (q : ascii -> bool) u n rest :
  Urllib.split_netloc u = (n, rest) -> Py.all q u = true ->
  Py.all q n = true /\ Py.all q rest = true.
Proof.
  intros H Hu. apply split_netloc_spec in H as [[-> ->]|(-> & _ & _)]; [done|].
  rewrite !all_app in Hu. rewrite !andb_true_iff in Hu. tauto.
Qed.

Lemma no_delim_contains n c :
  Py.all no_delim n = true -> is_delim c = true -> Py.contains c n = false.
Proof.
  intros Hn Hc. apply contains_false. eapply all_impl; [|exact Hn].
  intros d Hd. unfold isnt. destruct (Ascii.eqb c d) eqn:E; [|done].
  apply Ascii.eqb_eq in E as ->. unfold no_delim in Hd. by rewrite Hc in Hd.
Qed.

(** [split_once]. *)
Lemma split_once_spec c u a b :
  Urllib.split_once c u = (a, b) ->
  Py.contains c a = false /\ ((u = a /\ b = "") \/ u = a +:+ String c b).
Proof.
  unfold Urllib.split_once, Py.partition.
  destruct (Py.contains c u) eqn:E.
  - destruct (Py.find c u) as [i|] eqn:Ef.
    + intros [= <- <-]. destruct (find_split _ _ _ Ef) as [H1 H2].
      split; [done|]. by right.
    + apply find_none in Ef. congruence.
  - intros [= <- <-]. split; [done|]. by left.
Qed.

Lemma split_once_sep c a b :
  Py.contains c a = false -> Urllib.split_once c (a +:+ String c b) = (a, b).
Proof.
  intros H. unfold Urllib.split_once.
  rewrite contains_app, H. simpl. rewrite Ascii.eqb_refl.
  by rewrite partition_app_sep.
Qed.

Lemma split_once_none c a :
  Py.contains c a = false -> Urllib.split_once c a = (a, "").
Proof. intros H. unfold Urllib.split_once. by rewrite H. Qed.

Lemma split_once_all (q : ascii -> bool) c u a b :
  Urllib.split_once c u = (a, b) -> Py.all q u = true ->
  Py.all q a = true /\ Py.all q b = true.
Proof.
  intros H Hu. apply split_once_spec in H as [_ [[-> ->]| ->]]; [done|].
  rewrite all_app in Hu. simpl in Hu. rewrite !andb_true_iff in Hu. tauto.
Qed.

(** [_splitparams]. *)
Lemma rfind_none c s : Py.rfind c s = None <-> Py.contains c s = false.
Proof.
  induction s as [|d s IH]; simpl; [done|].
  destruct (Py.rfind c s); destruct (Ascii.eqb c d); try done.
  split; [done|]. intros H. by apply IH in H.
Qed.

Lemma rfind_after c s j :
  Py.rfind c s = Some j -> Py.contains c (Py.drop (S j) s) = false.
Proof.
  revert j. induction s as [|d s IH]; simpl; [done|]. intros j.
  destruct (Py.rfind c s) as [i|] eqn:E.
  - intros [= <-]. by apply IH.
  - destruct (Ascii.eqb c d); [|done]. intros [= <-]. by apply rfind_none.
Qed.

Lemma rfind_lt c s j : Py.rfind c s = Some j -> j < String.length s.
Proof.
  revert j. induction s as [|d s IH]; simpl; [done|]. intros j.
  destruct (Py.rfind c s) as [i|].
  - intros [= <-]. specialize (IH i eq_refl). lia.
  - destruct (Ascii.eqb c d); [|done]. intros [= <-]. lia.
Qed.

Lemma rfind_app_r c a b :
  Py.contains c b = false -> Py.rfind c (a +:+ b) = Py.rfind c a.
Proof.
  intros Hb. induction a as [|d a IH]; simpl.
  - by apply rfind_none.
  - by rewrite IH.
Qed.

Lemma contains_drop c (k : nat) s :
  Py.contains c s = false -> Py.contains c (Py.drop k s) = false.
Proof. rewrite !contains_false. apply all_drop. Qed.

Lemma splitparams_no_slash url :
  Py.contains "/" (Urllib._splitparams url).2 = false.
Proof.
  unfold Urllib._splitparams. destruct (Py.contains "/" url) eqn:E.
  - destruct (Py.rfind "/" url) as [j|] eqn:Er; [|done].
    unfold Py.find_from.
    destruct (Py.find ";" (Py.drop j url)) as [k|]; [|done].
    cbn [snd option_map].
    replace (S (j + k)) with (S j + k) by lia. rewrite drop_add.
    by apply contains_drop, rfind_after.
  - destruct (Py.find ";" url); cbn [snd]; [|done]. by apply contains_drop.
Qed.

Lemma splitparams_all (q : ascii -> bool) url :
  Py.all q url = true ->
  Py.all q (Urllib._splitparams url).1 = true
  /\ Py.all q (Urllib._splitparams url).2 = true.
Proof.
  intros H. unfold Urllib._splitparams, Py.find_from.
  destruct (Py.contains "/" url).
  - destruct (Py.rfind "/" url) as [j|]; [|done].
    destruct (Py.find ";" (Py.drop j url)); cbn [fst snd option_map]; [|done].
    split; [by apply all_take | by apply all_drop].
  - destruct (Py.find ";" url); cbn [fst snd];
      (split; [by apply all_take | try by apply all_drop]); done.
Qed.

Lemma splitparams_sep p pa :
  Py.contains ";" p = false -> Py.contains "/" pa = false ->
  Urllib._splitparams (p +:+ String ";" pa) = (p, pa).
Proof.
  intros Hp Hpa. unfold Urllib._splitparams.
  assert (Hdrop : Py.drop (S (String.length p)) (p +:+ String ";" pa) = pa).
  { replace (S (String.length p)) with (String.length p + 1) by lia.
    by rewrite drop_add, drop_app. }
  rewrite contains_app. cbn [Py.contains]. rewrite Hpa.
  change (Ascii.eqb "/" ";") with false. cbv iota. rewrite orb_false_r.
  destruct (Py.contains "/" p) eqn:E.
  - rewrite rfind_app_r by (simpl; done).
    destruct (Py.rfind "/" p) as [j|] eqn:Er.
    + pose proof (rfind_lt _ _ _ Er) as Hj. unfold Py.find_from.
      rewrite drop_app_le by lia.
      rewrite find_app_sep by (by apply contains_drop). cbn [option_map].
      rewrite drop_length.
      replace (j + (String.length p - j)) with (String.length p) by lia.
      by rewrite take_app, Hdrop.
    + apply rfind_none in Er. congruence.
  - rewrite find_app_sep by done. by rewrite take_app, Hdrop.
Qed.

End NetlocFacts.

(** * [urlsplit] after [urlunsplit] *)

Section Roundtrip.

Variable chk : string -> bool.

Implicit Types (s n url q f u : string).

Lemma urlsplit_stages u r :
  Urllib.urlsplit chk u = Some r ->
  exists u2 u3 u4,
    Urllib.split_scheme (Urllib.strip_unsafe u) = (Urllib.s_scheme r, u2)
    /\ Urllib.split_netloc u2 = (Urllib.s_netloc r, u3)
    /\ Urllib.netloc_ok chk (Urllib.s_netloc r) = true
    /\ Urllib.split_once "#" u3 = (u4, Urllib.s_fragment r)
    /\ Urllib.split_once "?" u4 = (Urllib.s_url r, Urllib.s_query r).
Proof.
  unfold Urllib.urlsplit.
  destruct (Urllib.split_scheme _) as [s u2] eqn:E1.
  destruct (Urllib.split_netloc u2) as [n u3] eqn:E2.
  destruct (Urllib.netloc_ok chk n) eqn:E3; [|done]. cbn [negb].
  destruct (Urllib.split_once "#" u3) as [u4 f] eqn:E4.
  destruct (Urllib.split_once "?" u4) as [url q] eqn:E5.
  intros [= <-]. by exists u2, u3, u4.
Qed.

Lemma urlsplit_ok u r : Urllib.urlsplit chk u = Some r -> split_ok chk r.
Proof.
  intros H. apply urlsplit_stages in H as (u2 & u3 & u4 & E1 & E2 & E3 & E4 & E5).
  apply split_once_spec in E4 as [F4 _].
  pose proof (split_once_all (isnt "#") _ _ _ _ E5) as F5.
  rewrite <- !contains_false in F5. destruct (F5 F4) as [F5a F5b].
  apply split_once_spec in E5 as [F6 _].
  split; try done.
  - apply split_scheme_spec in E1. tauto.
  - apply split_netloc_spec in E2 as [[-> _]|(_ & ? & _)]; done.
Qed.

Lemma urlsplit_all (p : ascii -> bool) u r :
  Urllib.urlsplit chk u = Some r ->
  Py.all p (Urllib.strip_unsafe u) = true ->
  Py.all p (Urllib.s_netloc r) = true /\ Py.all p (Urllib.s_url r) = true
  /\ Py.all p (Urllib.s_query r) = true /\ Py.all p (Urllib.s_fragment r) = true.
Proof.
  intros H Hu. apply urlsplit_stages in H as (u2 & u3 & u4 & E1 & E2 & _ & E4 & E5).
  assert (H2 : Py.all p u2 = true).
  { apply split_scheme_spec in E1 as [[_ ->]|(_ & i & ->)]; [done|].
    by apply all_drop. }
  destruct (split_netloc_all p _ _ _ E2 H2) as [Hn H3].
  destruct (split_once_all p _ _ _ _ E4 H3) as [H4 Hf].
  destruct (split_once_all p _ _ _ _ E5 H4) as [Hp Hq]. done.
Qed.

Lemma urlparse_inv u r :
  Urllib.urlparse chk u = Some r ->
  exists sr,
    Urllib.urlsplit chk u = Some sr
    /\ Urllib.scheme r = Urllib.s_scheme sr
    /\ Urllib.netloc r = Urllib.s_netloc sr
    /\ Urllib.query r = Urllib.s_query sr
    /\ Urllib.fragment r = Urllib.s_fragment sr
    /\ (Urllib.path r, Urllib.params r)
       = (if Py.mem (Urllib.s_scheme sr) Urllib.uses_params
             && Py.contains ";" (Urllib.s_url sr)
          then Urllib._splitparams (Urllib.s_url sr)
          else (Urllib.s_url sr, "")).
Proof.
  unfold Urllib.urlparse.
  destruct (Urllib.urlsplit chk u) as [[s n url q f]|]; [|done].
  cbn [Urllib.s_scheme Urllib.s_url].
  match goal with
  | |- context [match ?x with (_, _) => _ end] =>
      destruct x as [p pa] eqn:E
  end.
  intros [= <-].
  exists (Urllib.mkSplit s n url q f).
  cbn [Urllib.s_scheme Urllib.s_netloc Urllib.s_url Urllib.s_query
       Urllib.s_fragment Urllib.scheme Urllib.netloc Urllib.path
       Urllib.params Urllib.query Urllib.fragment].
  by rewrite E.
Qed.

Lemma urlparse_ok u r : Urllib.urlparse chk u = Some r -> parse_ok chk r.
Proof.
  intros H. apply urlparse_inv in H as (sr & Hs & E1 & E2 & E3 & E4 & E5).
  pose proof (urlsplit_ok _ _ Hs) as [K1 K2 K3 K4 K5 K6].
  pose proof (strip_unsafe_safe u) as Hsafe.
  destruct (urlsplit_all safe_char _ _ Hs Hsafe) as (S1 & S2 & S3 & S4).
  assert (Hall : forall p, Py.all p (Urllib.s_url sr) = true ->
                   Py.all p (Urllib.path r) = true
                   /\ Py.all p (Urllib.params r) = true).
  { intros p Hp. pose proof (splitparams_all p _ Hp) as [A B].
    destruct (_ && _) in E5; [|by injection E5 as -> ->].
    destruct (Urllib._splitparams _) as [x y]. by injection E5 as -> ->. }
  rewrite contains_false in K4, K5.
  destruct (Hall _ K4) as [Q1 Q2]. destruct (Hall _ K5) as [F1 F2].
  destruct (Hall _ S2) as [T1 T2].
  rewrite <- contains_false in Q1, Q2, F1, F2.
  split; rewrite ?E1, ?E2, ?E4; try done.
  - pose proof (splitparams_no_slash (Urllib.s_url sr)) as Hns.
    destruct (_ && _) in E5; [|by injection E5 as _ ->].
    destruct (Urllib._splitparams _) as [x y]. by injection E5 as _ ->.
  - intros Hne. destruct (Py.mem _ _); [done|]. simpl in E5.
    injection E5 as _ E. congruence.
Qed.

(** The text [urlunsplit] writes when there is a query and a path that
    does not open with two slashes. *)
Lemma urlunsplit_eq s n url q f :
  q <> "" -> url <> "" ->
  String.eqb (Py.take 2 url) "//" = false ->
  Urllib.urlunsplit (Urllib.mkSplit s n url q f)
  = colon_part s +:+ slashes_part s n
      +:+ rooted s n url +:+ "?" +:+ q +:+ hash_part f.
Proof.
  intros Hq Hu H2.
  unfold Urllib.urlunsplit, rooted, slashes_part, hierarchical, hash_part,
    colon_part.
  rewrite H2. destruct q as [|cq q]; [done|].
  destruct url as [|c url]; [done|].
  cbn [Urllib.nonempty negb andb starts_sep Py.take].
  assert (Hc : String.eqb (String c "") "/" = Pathlib.is_sep c).
  { unfold Pathlib.is_sep. simpl. by destruct (Ascii.eqb c "/"). }
  rewrite Hc, ?andb_true_r.
  destruct (Urllib.nonempty n
            || Urllib.nonempty s && Py.mem s Urllib.uses_netloc);
    destruct (Pathlib.is_sep c); destruct f; destruct (Urllib.nonempty s);
    cbn [negb andb Urllib.nonempty];
    rewrite ?app_assoc, ?app_nil_r; simpl; rewrite ?app_assoc, ?app_nil_r;
    reflexivity.
Qed.

Lemma valid_scheme_safe s : valid_scheme s = true -> Py.all safe_char s = true.
Proof.
  destruct s as [|c s]; [done|]. unfold valid_scheme.
  rewrite !andb_true_iff. intros [[_ H] _].
  eapply all_impl; [|exact H]. apply in_scheme_safe.
Qed.

Lemma valid_scheme_head s :
  valid_scheme s = true ->
  exists c r, s = String c r /\ Urllib.whatwg_c0_control_or_space c = false.
Proof.
  destruct s as [|c s]; [done|]. unfold valid_scheme.
  rewrite !andb_true_iff. intros [[H _] _]. exists c, s.
  split; [done|]. by apply alpha_not_space.
Qed.

Lemma rooted_contains c s n url :
  Pathlib.is_sep c = false ->
  Py.contains c (rooted s n url) = Py.contains c url.
Proof.
  intros Hc. unfold rooted. destruct (_ && _); [|done].
  rewrite contains_app. simpl. unfold Pathlib.is_sep in Hc. by rewrite Hc.
Qed.

Lemma rooted_safe s n url :
  Py.all safe_char url = true -> Py.all safe_char (rooted s n url) = true.
Proof.
  intros H. unfold rooted. destruct (_ && _); [|done].
  by rewrite all_app, H.
Qed.

Lemma rooted_starts s n url :
  hierarchical s n = true -> url <> "" ->
  exists r, rooted s n url = String "/" r.
Proof.
  intros Hh Hu. unfold rooted. rewrite Hh. destruct url as [|c url]; [done|].
  simpl. destruct (Pathlib.is_sep c) eqn:E; simpl; [|by eexists].
  unfold Pathlib.is_sep in E. apply Ascii.eqb_eq in E as ->. by eexists.
Qed.

Lemma take2_app url t :
  url <> "" -> String.eqb (Py.take 2 url) "//" = false ->
  String.eqb (Py.take 2 (url +:+ String "?" t)) "//" = false.
Proof.
  intros Hu H. destruct url as [|c1 [|c2 url]]; [done| |exact H].
  simpl in *. destruct (Ascii.eqb c1 "/"); done.
Qed.

(** [urlsplit] reads back what [urlunsplit] wrote. *)
Lemma urlsplit_urlunsplit s n url q f :
  valid_scheme s = true ->
  Py.all no_delim n = true -> Urllib.netloc_ok chk n = true ->
  url <> "" -> String.eqb (Py.take 2 url) "//" = false ->
  Py.contains "?" url = false -> Py.contains "#" url = false ->
  q <> "" -> Py.contains "#" q = false ->
  Py.all safe_char n = true -> Py.all safe_char url = true ->
  Py.all safe_char q = true -> Py.all safe_char f = true ->
  Urllib.urlsplit chk (Urllib.urlunsplit (Urllib.mkSplit s n url q f))
  = Some (Urllib.mkSplit s n (rooted s n url) q f).
Proof.
  intros Hs Hn Hok Hu H2 Huq Huf Hq Hqf Sn Su Sq Sf.
  assert (Hs0 : Urllib.nonempty s = true) by (by destruct s).
  rewrite urlunsplit_eq by done. unfold colon_part, slashes_part.
  rewrite Hs0, app_assoc.
  set (auth := if hierarchical s n then "//" +:+ n else "").
  set (rest := auth +:+ rooted s n url +:+ "?" +:+ q +:+ hash_part f).
  assert (Hsafe : Py.all safe_char (s +:+ ":" +:+ rest) = true).
  { unfold rest, auth, hash_part. rewrite !all_app.
    rewrite valid_scheme_safe, rooted_safe, Sq by done.
    destruct (hierarchical s n), (Urllib.nonempty f);
      rewrite ?all_app, ?Sn, ?Sf; reflexivity. }
  unfold Urllib.urlsplit.
  destruct (valid_scheme_head _ Hs) as (c & r & Es & Hc).
  assert (Hstrip : Urllib.strip_unsafe (s +:+ ":" +:+ rest) = s +:+ ":" +:+ rest).
  { rewrite Es in *. by apply strip_unsafe_id. }
  rewrite Hstrip, split_scheme_valid by done.
  assert (Hnet : Urllib.split_netloc rest
                 = (n, rooted s n url +:+ "?" +:+ q +:+ hash_part f)).
  { unfold rest, auth. destruct (hierarchical s n) eqn:Eh.
    - rewrite app_assoc. apply split_netloc_compose; [done|].
      destruct (rooted_starts s n url Eh Hu) as [t ->]. done.
    - unfold hierarchical in Eh. apply orb_false_iff in Eh as [En Em].
      destruct n; [|done]. unfold rooted, hierarchical. rewrite En, Em.
      rewrite Hs0 in Em. cbn [andb] in Em.
      unfold Urllib.split_netloc. cbn [orb andb String.append].
      change ("?" +:+ q +:+ hash_part f) with (String "?" (q +:+ hash_part f)).
      by rewrite take2_app. }
  rewrite Hnet, Hok. cbn [negb].
  assert (Hr_q : Py.contains "?" (rooted s n url) = false)
    by (by rewrite rooted_contains).
  assert (Hr_f : Py.contains "#" (rooted s n url) = false)
    by (by rewrite rooted_contains).
  assert (Hfrag : Urllib.split_once "#"
                    (rooted s n url +:+ "?" +:+ q +:+ hash_part f)
                  = (rooted s n url +:+ "?" +:+ q, f)).
  { assert (Hno : Py.contains "#" (rooted s n url +:+ "?" +:+ q) = false).
    { rewrite !contains_app, Hr_f, Hqf. done. }
    unfold hash_part. destruct f as [|cf f]; cbn [Urllib.nonempty].
    - rewrite !app_nil_r. by apply split_once_none.
    - replace (rooted s n url +:+ "?" +:+ q +:+ "#" +:+ String cf f)
        with ((rooted s n url +:+ "?" +:+ q) +:+ String "#" (String cf f))
        by (by rewrite !app_assoc).
      by apply split_once_sep. }
  rewrite Hfrag. change ("?" +:+ q) with (String "?" q).
  by rewrite split_once_sep.
Qed.

End Roundtrip.

(** * The canonicalizer *)

Section Canonicalizer.

Variable chk : string -> bool.

Implicit Types (u out : string) (r : Urllib.ParseResult).

Lemma feed_query_cases p :
  feed_query p = "mode=links&do=rss" \/ feed_query p = "do=rss".
Proof. unfold feed_query. destruct (Py.endswith p "rss.php"); auto. Qed.

Lemma or_slash_nonempty p : or_slash p <> "".
Proof. by destruct p. Qed.

Lemma unparse_body r :
  Urllib.urlunparse (sanitize_parts r)
  = Urllib.urlunsplit
      (Urllib.mkSplit (Urllib.scheme r) (Urllib.netloc r) (canonical_body r)
         (feed_query (clean_path (Urllib.path r))) (Urllib.fragment r)).
Proof.
  unfold Urllib.urlunparse, sanitize_parts, canonical_body, semi_part.
  destruct (Urllib.nonempty (Urllib.params r)); [done|]. by rewrite app_nil_r.
Qed.

Lemma body_nonempty r : canonical_body r <> "".
Proof.
  unfold canonical_body. pose proof (or_slash_nonempty (clean_path (Urllib.path r))).
  by destruct (or_slash _).
Qed.

Lemma body_starts r :
  starts_sep (canonical_body r)
  = starts_sep (or_slash (clean_path (Urllib.path r))).
Proof.
  unfold canonical_body.
  pose proof (or_slash_nonempty (clean_path (Urllib.path r))).
  by destruct (or_slash _).
Qed.

Lemma body_take2 r : String.eqb (Py.take 2 (canonical_body r)) "//" = false.
Proof.
  unfold canonical_body.
  destruct (or_slash (clean_path (Urllib.path r))) as [|c t] eqn:E.
  { by apply or_slash_nonempty in E. }
  apply or_slash_head in E as [(_ & -> & _)|[Hc _]].
  - unfold semi_part. destruct (Urllib.nonempty _); simpl;
      by destruct (Ascii.eqb c "/").
  - unfold Pathlib.is_sep in Hc. simpl. destruct (t +:+ _); simpl; by rewrite Hc.
Qed.

Lemma body_all (q : ascii -> bool) r :
  q "/"%char = true -> q ";"%char = true ->
  Py.all q (Urllib.path r) = true -> Py.all q (Urllib.params r) = true ->
  Py.all q (canonical_body r) = true.
Proof.
  intros H1 H2 Hp Hpa. unfold canonical_body, semi_part, clean_path.
  rewrite all_app, clean_path_all by done.
  destruct (Urllib.nonempty _); simpl; [|done]. by rewrite H2, Hpa.
Qed.

Lemma body_contains c r :
  isnt c "/" = true -> isnt c ";" = true ->
  Py.contains c (Urllib.path r) = false ->
  Py.contains c (Urllib.params r) = false ->
  Py.contains c (canonical_body r) = false.
Proof. rewrite !contains_false. apply body_all. Qed.

(** The text of the result, component by component. *)
Lemma sanitize_formula r :
  Urllib.urlunparse (sanitize_parts r)
  = colon_part (Urllib.scheme r)
    +:+ slashes_part (Urllib.scheme r) (Urllib.netloc r)
    +:+ rooted (Urllib.scheme r) (Urllib.netloc r) (canonical_body r)
    +:+ "?" +:+ feed_query (clean_path (Urllib.path r))
    +:+ hash_part (Urllib.fragment r).
Proof.
  rewrite unparse_body. apply urlunsplit_eq.
  - by destruct (feed_query_cases (clean_path (Urllib.path r))) as [-> | ->].
  - apply body_nonempty.
  - apply body_take2.
Qed.

Lemma sanitize_url_parsed u r :
  u <> "" -> Urllib.urlparse chk u = Some r ->
  sanitize_url chk u = Some (Urllib.urlunparse (sanitize_parts r)).
Proof. intros Hu Hr. unfold sanitize_url. destruct u; [done|]. by rewrite Hr. Qed.

Lemma sanitized_nonempty r : Urllib.urlunparse (sanitize_parts r) <> "".
Proof.
  rewrite sanitize_formula.
  set (a := colon_part _). set (b := slashes_part _ _). set (c := rooted _ _ _).
  set (t := feed_query _ +:+ _).
  intros H. apply (f_equal String.length) in H.
  rewrite !length_app in H. simpl in H. lia.
Qed.

(** [urlsplit] reads the result back when the input had a scheme. *)
Lemma sanitized_urlsplit r :
  parse_ok chk r -> Urllib.scheme r <> "" ->
  Urllib.urlsplit chk (Urllib.urlunparse (sanitize_parts r))
  = Some (Urllib.mkSplit (Urllib.scheme r) (Urllib.netloc r)
            (rooted (Urllib.scheme r) (Urllib.netloc r) (canonical_body r))
            (feed_query (clean_path (Urllib.path r))) (Urllib.fragment r)).
Proof.
  intros [Hsch Hn Hck Hpq Hpf Haq Haf Has Hps Sn Sp Sa Sf] Hs.
  rewrite unparse_body. apply urlsplit_urlunsplit; try done.
  - by destruct Hsch.
  - apply body_nonempty.
  - apply body_take2.
  - by apply body_contains.
  - by apply body_contains.
  - by destruct (feed_query_cases (clean_path (Urllib.path r))) as [-> | ->].
  - by destruct (feed_query_cases (clean_path (Urllib.path r))) as [-> | ->].
  - by apply body_all.
  - by destruct (feed_query_cases (clean_path (Urllib.path r))) as [-> | ->].
Qed.

Lemma rooted_body r :
  rooted (Urllib.scheme r) (Urllib.netloc r) (canonical_body r)
  = rooted (Urllib.scheme r) (Urllib.netloc r)
      (or_slash (clean_path (Urllib.path r)))
    +:+ semi_part (Urllib.params r).
Proof.
  unfold rooted. rewrite body_starts. unfold canonical_body.
  destruct (_ && _); [|done]. by rewrite app_assoc.
Qed.

Lemma rooted_clean r :
  clean_path
    (rooted (Urllib.scheme r) (Urllib.netloc r)
       (or_slash (clean_path (Urllib.path r))))
  = clean_path (Urllib.path r).
Proof.
  unfold rooted.
  destruct (or_slash (clean_path (Urllib.path r))) as [|c t] eqn:E.
  { by apply or_slash_nonempty in E. }
  apply or_slash_head in E as [(Hc & -> & ->)|[Hc E]].
  - simpl. rewrite Hc, andb_false_r.
    unfold Pathlib.is_sep in Hc. apply Ascii.eqb_eq in Hc as ->.
    vm_compute; reflexivity.
  - rewrite <- E. unfold clean_path.
    destruct (_ && _); [|apply (clean_path_again _ ""); by left].
    apply (clean_path_again _ "/"). by right.
Qed.

(** [urlparse] reads the result back, up to the leading slash of the path,
    when the input had a scheme and no semicolon in its path. *)
Lemma sanitized_urlparse r :
  parse_ok chk r -> Urllib.scheme r <> "" ->
  Py.contains ";" (Urllib.path r) = false ->
  Urllib.urlparse chk (Urllib.urlunparse (sanitize_parts r))
  = Some (Urllib.mkParse (Urllib.scheme r) (Urllib.netloc r)
            (rooted (Urllib.scheme r) (Urllib.netloc r)
               (or_slash (clean_path (Urllib.path r))))
            (Urllib.params r)
            (feed_query (clean_path (Urllib.path r))) (Urllib.fragment r)).
Proof.
  intros Hok Hs Hsemi. unfold Urllib.urlparse.
  rewrite sanitized_urlsplit by done. rewrite rooted_body.
  set (p' := rooted _ _ (or_slash _)).
  assert (Hp' : Py.contains ";" p' = false).
  { unfold p'. rewrite rooted_contains by done. apply contains_false.
    apply clean_path_all; [done|]. by apply contains_false. }
  unfold semi_part. destruct (Urllib.params r) as [|c pa] eqn:E.
  - cbn [Urllib.nonempty]. rewrite app_nil_r, Hp', andb_false_r. done.
  - cbn [Urllib.nonempty]. destruct Hok as [_ _ _ _ _ _ _ Hsl Hsch _ _ _ _].
    rewrite Hsch by (by rewrite E). rewrite E in Hsl.
    change (";" +:+ String c pa) with (String ";" (String c pa)).
    rewrite contains_app. cbn [Py.contains andb]. rewrite orb_true_r.
    rewrite splitparams_sep by done. done.
Qed.

(** C2, as the code runs it: on [https://example.org/shaarli/feed/feed/rss]
    the loop drops both [feed] segments, and [sanitize_url] returns
    [https://example.org/shaarli?do=rss], not the
    [https://example.org/shaarli/feed?do=rss] of the doctest. *)
Theorem sanitize_url_feed_feed_rss :
  sanitize_url chk "https://example.org/shaarli/feed/feed/rss"
  = Some "https://example.org/shaarli?do=rss"
  /\ sanitize_url chk "https://example.org/shaarli/feed/feed/rss"
     <> Some "https://example.org/shaarli/feed?do=rss".
Proof.
  assert (H : sanitize_url chk "https://example.org/shaarli/feed/feed/rss"
              = Some "https://example.org/shaarli?do=rss")
    by (vm_compute; reflexivity).
  split; [exact H|]. rewrite H. discriminate.
Qed.

Lemma clean_path_wanted p :
  forallb (wanted_in UNWANTED_URL_PATH_PARTS)
    (Py.split "/" (or_slash (clean_path p))) = true.
Proof.
  apply forallb_forall. intros x. unfold wanted_in at 1. rewrite negb_true_iff.
  unfold clean_path. rewrite clean_path_in_eq.
  pose proof (kept_good UNWANTED_URL_PATH_PARTS p) as Hgood.
  destruct (List.filter _ (segments p)) as [|y l] eqn:E.
  - simpl. intros [<-|[<-|[]]]; reflexivity.
  - assert (Hne : Py.join "/" (y :: l) <> "") by (by apply join_good_nonempty).
    destruct (Py.join "/" (y :: l)) eqn:Ej; [done|]. simpl or_slash.
    rewrite <- Ej, (split_join "/"%char); [|done|by apply good_no_sep].
    rewrite <- E. intros Hx. apply filter_In in Hx as [_ Hx].
    by apply negb_true_iff in Hx.
Qed.

(** C3: for every input that [urlparse] reads, the path that [sanitize_url]
    writes into its result is the segments of the parsed path that are not
    members of the unwanted set, in their order, joined by [/] (or [/] when
    none is left); no segment of it is a member of the set; and the loop
    leaves exactly those parts in whatever order the set is walked. *)
Theorem unwanted_removal_exhaustive (order : list string) u r :
  u <> "" ->
  Urllib.urlparse chk u = Some r ->
  sanitize_url chk u
  = Some (colon_part (Urllib.scheme r)
          +:+ slashes_part (Urllib.scheme r) (Urllib.netloc r)
          +:+ rooted (Urllib.scheme r) (Urllib.netloc r)
                (Urllib.path (sanitize_parts r))
          +:+ semi_part (Urllib.params r)
          +:+ "?" +:+ Urllib.query (sanitize_parts r)
          +:+ hash_part (Urllib.fragment r))
  /\ Urllib.path (sanitize_parts r)
     = or_slash
         (Py.join "/"
            (List.filter (wanted_in UNWANTED_URL_PATH_PARTS)
               (segments (Urllib.path r))))
  /\ forallb (wanted_in UNWANTED_URL_PATH_PARTS)
       (Py.split "/" (Urllib.path (sanitize_parts r))) = true
  /\ remove_unwanted order (Pathlib.parts (Urllib.path r))
     = List.filter (wanted_in order) (Pathlib.parts (Urllib.path r)).
Proof.
  intros Hu Hr. split; [|split; [|split]].
  - rewrite (sanitize_url_parsed _ _ Hu Hr), sanitize_formula, rooted_body.
    by rewrite !app_assoc.
  - cbn [sanitize_parts Urllib.path]. unfold clean_path.
    by rewrite clean_path_in_eq.
  - cbn [sanitize_parts Urllib.path]. apply clean_path_wanted.
  - apply remove_unwanted_filter.
Qed.

(** C10: splitting the path drops every [.] segment and every empty one, so
    no segment of the canonical path is [.]; on
    [https://example.org/./shaarli/feed] the result is
    [https://example.org/shaarli?do=rss]. *)
Theorem dot_segments_dropped (p : string) :
  Py.mem "." (Pathlib.parts p) = false
  /\ Py.mem "" (Pathlib.parts p) = false
  /\ Py.mem "." (Py.split "/" (or_slash (clean_path p))) = false
  /\ sanitize_url chk "https://example.org/./shaarli/feed"
     = Some "https://example.org/shaarli?do=rss".
Proof.
  rewrite !mem_false.
  assert (Hparts : forall x, In x (Pathlib.parts p) -> x <> "." /\ x <> "").
  { intros x. rewrite parts_eq, in_app_iff. intros [Hx|Hx].
    - destruct p as [|c p]; simpl in Hx; [done|].
      destruct (Pathlib.is_sep c); [|done].
      destruct (_ =? 2); destruct Hx as [<-|[]]; done.
    - apply filter_In in Hx as [_ Hx]. unfold Pathlib.keep_part in Hx.
      apply andb_true_iff in Hx as [H1 H2]. split; intros ->; done. }
  split; [intros H; by apply Hparts in H as [? _]|].
  split; [intros H; by apply Hparts in H as [_ ?]|].
  split; [|vm_compute; reflexivity].
  cut (forall x, In x (Py.split "/" (or_slash (clean_path p))) -> x <> ".").
  { intros H Hin. by apply H in Hin. }
  intros x. unfold clean_path. rewrite clean_path_in_eq.
  pose proof (kept_good UNWANTED_URL_PATH_PARTS p) as Hgood.
  destruct (List.filter _ (segments p)) as [|y l] eqn:E.
  - simpl. intros [<-|[<-|[]]]; done.
  - assert (Hne : Py.join "/" (y :: l) <> "") by (by apply join_good_nonempty).
    destruct (Py.join "/" (y :: l)) eqn:Ej; [done|]. simpl or_slash.
    rewrite <- Ej, (split_join "/"%char); [|done|by apply good_no_sep].
    intros Hx ->. revert Hx. rewrite List.Forall_forall in Hgood.
    intros Hx. by apply Hgood in Hx.
Qed.

Lemma colon_part_contains c s :
  Py.contains c s = false -> isnt c ":" = true ->
  Py.contains c (colon_part s) = false.
Proof.
  intros Hs Hc. unfold colon_part. destruct (Urllib.nonempty s); [|done].
  rewrite contains_app, Hs. simpl. unfold isnt in Hc.
  by destruct (Ascii.eqb c ":").
Qed.

Lemma slashes_part_contains c s n :
  Py.contains c n = false -> isnt c "/" = true ->
  Py.contains c (slashes_part s n) = false.
Proof.
  intros Hn Hc. unfold slashes_part. destruct (hierarchical s n); [|done].
  rewrite contains_app, Hn. simpl. unfold isnt in Hc.
  by destruct (Ascii.eqb c "/").
Qed.

(** Neither [?] nor [#] occurs before the query of the result. *)
Lemma base_contains c r :
  parse_ok chk r -> c = "?"%char \/ c = "#"%char ->
  Py.contains c
    (colon_part (Urllib.scheme r)
     +:+ slashes_part (Urllib.scheme r) (Urllib.netloc r)
     +:+ rooted (Urllib.scheme r) (Urllib.netloc r) (canonical_body r))
  = false.
Proof.
  intros [Hsch Hnd Hck Hpq Hpf Haq Haf Has Hps Sn Sp Sa Sf] Hc.
  assert (Hs : Py.contains c (Urllib.scheme r) = false).
  { destruct Hsch as [-> | H]; [done|]. apply valid_scheme_plain; [done|].
    by destruct Hc as [-> | ->]. }
  assert (Hn : Py.contains c (Urllib.netloc r) = false).
  { apply no_delim_contains; [done|]. by destruct Hc as [-> | ->]. }
  rewrite !contains_app, colon_part_contains, slashes_part_contains;
    try done; try (by destruct Hc as [-> | ->]).
  rewrite rooted_contains by (by destruct Hc as [-> | ->]).
  by destruct Hc as [-> | ->]; apply body_contains.
Qed.

(** C1, amended: for a URL that [urlparse] reads with a scheme and with no
    semicolon in its path, canonicalizing the canonical form gives the
    canonical form again. *)
Theorem sanitize_url_idempotent u r :
  Urllib.urlparse chk u = Some r ->
  Urllib.scheme r <> "" ->
  Py.contains ";" (Urllib.path r) = false ->
  exists out,
    sanitize_url chk u = Some out /\ sanitize_url chk out = Some out.
Proof.
  intros Hr Hs Hsemi. pose proof (urlparse_ok chk _ _ Hr) as Hok.
  assert (Hu : u <> "").
  { intros ->. vm_compute in Hr. injection Hr as <-. done. }
  exists (Urllib.urlunparse (sanitize_parts r)).
  split; [by apply sanitize_url_parsed|].
  rewrite (sanitize_url_parsed _ _ (sanitized_nonempty r)
             (sanitized_urlparse r Hok Hs Hsemi)).
  f_equal. unfold sanitize_parts at 1.
  cbn [Urllib.scheme Urllib.netloc Urllib.path Urllib.params Urllib.fragment].
  by rewrite rooted_clean.
Qed.

(** C4: whatever the query of the input, the result is a text without [?]
    or [#], then [?] and the query fixed by the cleaned path
    ([mode=links&do=rss] when it ends with [rss.php], [do=rss] otherwise),
    then the fragment if there is one. *)
Theorem query_replacement_total u r :
  u <> "" ->
  Urllib.urlparse chk u = Some r ->
  exists base,
    sanitize_url chk u
    = Some (base +:+ "?" +:+ feed_query (clean_path (Urllib.path r))
              +:+ hash_part (Urllib.fragment r))
    /\ Py.contains "?" base = false
    /\ Py.contains "#" base = false
    /\ Urllib.query (sanitize_parts r)
       = (if Py.endswith (clean_path (Urllib.path r)) "rss.php"
          then "mode=links&do=rss" else "do=rss")
    /\ forall q0 : string,
         sanitize_parts
           (Urllib.mkParse (Urllib.scheme r) (Urllib.netloc r) (Urllib.path r)
              (Urllib.params r) q0 (Urllib.fragment r))
         = sanitize_parts r.
Proof.
  intros Hu Hr. pose proof (urlparse_ok chk _ _ Hr) as Hok.
  exists (colon_part (Urllib.scheme r)
          +:+ slashes_part (Urllib.scheme r) (Urllib.netloc r)
          +:+ rooted (Urllib.scheme r) (Urllib.netloc r) (canonical_body r)).
  split; [|split; [|split; [|split]]].
  - rewrite (sanitize_url_parsed _ _ Hu Hr), sanitize_formula.
    by rewrite !app_assoc.
  - apply base_contains; [done | by left].
  - apply base_contains; [done | by right].
  - done.
  - done.
Qed.

(** C6, amended: the empty input gives the empty output; an output is empty
    exactly when its input is; and for an input that [urlparse] reads with
    a scheme the output is an absolute URL, which [urlsplit] reads back
    with that scheme, that netloc, the fixed query and that fragment. *)
Theorem sanitize_url_output_shape u r :
  Urllib.urlparse chk u = Some r ->
  Urllib.scheme r <> "" ->
  sanitize_url chk "" = Some ""
  /\ (forall u' : string,
        match sanitize_url chk u' with
        | Some out' => Urllib.nonempty out' = Urllib.nonempty u'
        | None => True
        end)
  /\ exists out,
       sanitize_url chk u = Some out
       /\ absolute_url chk out = true
       /\ Urllib.urlsplit chk out
          = Some (Urllib.mkSplit (Urllib.scheme r) (Urllib.netloc r)
                    (rooted (Urllib.scheme r) (Urllib.netloc r)
                       (canonical_body r))
                    (feed_query (clean_path (Urllib.path r)))
                    (Urllib.fragment r)).
Proof.
  intros Hr Hs. pose proof (urlparse_ok chk _ _ Hr) as Hok.
  split; [done|]. split.
  - intros u'. destruct u' as [|c u']; [done|]. unfold sanitize_url.
    destruct (Urllib.urlparse chk (String c u')) as [r'|]; [|done].
    pose proof (sanitized_nonempty r') as H.
    by destruct (Urllib.urlunparse (sanitize_parts r')).
  - assert (Hu : u <> "").
    { intros ->. vm_compute in Hr. injection Hr as <-. done. }
    exists (Urllib.urlunparse (sanitize_parts r)).
    split; [by apply sanitize_url_parsed|].
    unfold absolute_url. rewrite sanitized_urlsplit by done.
    split; [|done]. simpl. by apply nonempty_true.
Qed.

(** C8: the scheme, the netloc, the parameters and the fragment of the
    parsed input are those handed to [urlunparse], which writes them out
    unchanged around the new path and query; a fragment [#top] follows the
    new query. *)
Theorem sanitize_url_frame u r :
  u <> "" ->
  Urllib.urlparse chk u = Some r ->
  sanitize_url chk u = Some (Urllib.urlunparse (sanitize_parts r))
  /\ Urllib.scheme (sanitize_parts r) = Urllib.scheme r
  /\ Urllib.netloc (sanitize_parts r) = Urllib.netloc r
  /\ Urllib.params (sanitize_parts r) = Urllib.params r
  /\ Urllib.fragment (sanitize_parts r) = Urllib.fragment r
  /\ Urllib.urlunparse (sanitize_parts r)
     = colon_part (Urllib.scheme r)
       +:+ slashes_part (Urllib.scheme r) (Urllib.netloc r)
       +:+ rooted (Urllib.scheme r) (Urllib.netloc r)
             (or_slash (clean_path (Urllib.path r)))
       +:+ semi_part (Urllib.params r)
       +:+ "?" +:+ feed_query (clean_path (Urllib.path r))
       +:+ hash_part (Urllib.fragment r)
  /\ sanitize_url chk "https://example.org/shaarli/feed/atom?do=atom#top"
     = Some "https://example.org/shaarli?do=rss#top".
Proof.
  intros Hu Hr. split; [by apply sanitize_url_parsed|].
  repeat (split; [done|]). split; [|vm_compute; reflexivity].
  by rewrite sanitize_formula, rooted_body, !app_assoc.
Qed.

End Canonicalizer.

(** * The reconciler *)

Section Reconciler.

Implicit Types (current manual bad : gset string) (u : string).

Lemma report_loop current l out new :
  fold_left (report_step current) l (out, new)
  = (out ++ map feed_line (List.filter (keep_feed current) l),
     new + length (List.filter (keep_feed current) l)).
Proof.
  revert out new. induction l as [|u l IH]; intros out new; simpl.
  - by rewrite List.app_nil_r, Nat.add_0_r.
  - unfold report_step at 2. destruct (keep_feed current u); simpl.
    + rewrite IH, <- List.app_assoc. simpl. f_equal. lia.
    + apply IH.
Qed.


Lemma keep_feed_spec current u :
  keep_feed current u = true
  <-> u <> ""
      /\ (Py.replace "http:" "https:" u ∉ current)
      /\ (Py.replace "https:" "http:" u ∉ current).
Proof.
  unfold keep_feed.
  rewrite !andb_true_iff, !negb_true_iff, !bool_decide_eq_false, nonempty_true.
  tauto.
Qed.




End Reconciler.

(** [main] reports on the manual set merged with what each source gave. *)
Lemma update_all_merged chk jf dec net sources (new_feeds : gset string) :
  update_all chk jf dec net sources new_feeds
  = (found ← mapM (fun ku => get_dynamic_feeds chk jf dec net ku.1 ku.2) sources;
     Some (merged new_feeds found)).
Proof.
  revert new_feeds. induction sources as [|[kind url] rest IH]; intros nf.
  - done.
  - cbn [update_all mapM fst snd].
    destruct (get_dynamic_feeds chk jf dec net kind url) as [d|]; [|done].
    cbn [mbind option_bind]. rewrite IH.
    by destruct (mapM _ rest).
Qed.

Lemma main_reports chk jf ji dec net rt :
  main chk jf ji dec net rt
  = (current ← get_current_feeds chk ji rt;
     manual ← get_manual_feeds chk ji rt;
     bad ← get_bad_feeds chk ji rt;
     found ← mapM (fun ku => get_dynamic_feeds chk jf dec net ku.1 ku.2) URLS;
     Some (report current (merged manual found) bad)).
Proof.
  unfold main.
  destruct (get_current_feeds chk ji rt) as [current|]; [|done].
  destruct (get_manual_feeds chk ji rt) as [manual|]; [|done].
  destruct (get_bad_feeds chk ji rt) as [bad|]; [|done].
  cbn [mbind option_bind]. rewrite update_all_merged.
  by destruct (mapM _ URLS).
Qed.


(** C9: both substitutions of the reconciler rewrite every occurrence of
    their pattern, at any position of the candidate; so a candidate that
    carries a second
    [http:] in its path is looked up in [current] with both rewritten, and
    the variant that differs in the leading scheme only is not looked up. *)
Theorem scheme_swap_rewrites_every_occurrence :
  (forall a b : string,
      Py.replace "http:" "https:" (a +:+ "http:" +:+ b)
      = Py.replace "http:" "https:" a +:+ "https:"
          +:+ Py.replace "http:" "https:" b)
  /\ (forall a b : string,
         Py.replace "https:" "http:" (a +:+ "https:" +:+ b)
         = Py.replace "https:" "http:" a +:+ "http:"
             +:+ Py.replace "https:" "http:" b)
  /\ sanitize_url (fun _ => true) "http://a/http:/b/feed"
     = Some "http://a/http:/b?do=rss"
  /\ Py.replace "http:" "https:" "http://a/http:/b?do=rss"
     = "https://a/https:/b?do=rss"
  /\ keep_feed {["https://a/https:/b?do=rss"]} "http://a/http:/b?do=rss"
     = false
  /\ keep_feed {["https://a/http:/b?do=rss"]} "http://a/http:/b?do=rss"
     = true.
Proof.
  split; [|split; [|split; [|split; [|split]]]].
  - by apply replace_occurrence.
  - by apply replace_occurrence.
  - vm_compute; reflexivity.
  - vm_compute; reflexivity.
  - vm_compute; reflexivity.
  - vm_compute; reflexivity.
Qed.

(** * Feed sources *)

Section SetBuilding.

Variable chk : string -> bool.

Lemma mapped_members {A B} (f : A -> option B) (l : list A) (k : list B) :
  Forall2 (fun x y => f x = Some y) l k ->
  forall y, y ∈ k <-> exists x, x ∈ l /\ f x = Some y.
Proof.
  induction 1 as [|x y l k Hxy _ IH]; intros z.
  - split; [by intros ?%elem_of_nil|]. by intros (? & ?%elem_of_nil & _).
  - rewrite elem_of_cons, IH. split.
    + intros [->|(x' & Hx' & E)].
      * exists x. split; [apply list_elem_of_here | done].
      * exists x'. split; [by apply list_elem_of_further | done].
    + intros (x' & Hx' & E). apply elem_of_cons in Hx' as [->|Hx'].
      * left. congruence.
      * right. by exists x'.
Qed.

Lemma sanitize_all_spec (urls : list pyval) :
  match sanitize_all chk urls with
  | Some feeds =>
      forall u : string,
        u ∈ feeds <-> exists v, v ∈ urls /\ sanitize_value chk v = Some u
  | None => exists v, v ∈ urls /\ sanitize_value chk v = None
  end.
Proof.
  unfold sanitize_all.
  destruct (mapM (sanitize_value chk) urls) as [k|] eqn:E; simpl.
  - intros u. rewrite elem_of_list_to_set. apply mapped_members.
    by apply mapM_Some.
  - apply mapM_None in E. by apply Exists_exists in E.
Qed.

End SetBuilding.

(** C7, amended: when the read of [url] ends with [IncompleteRead], the
    read does not fail the call: the bytes received are the payload, and
    [get_dynamic_feeds] gives what it gives on a complete read of those
    bytes.  When it returns, the result is the set of the canonical forms
    of the values taken from those bytes; it fails when [json.loads] or
    [decode] fails on them, when [kind] is neither [json] nor [opml], and
    also when [sanitize_url] refuses one of the values taken. *)
Theorem truncated_read_tolerated
    (chk : string -> bool)
    (json_feed_urls : string -> option (list pyval))
    (decode : string -> option string)
    (net : string -> read_outcome)
    (kind url partial : string) :
  net url = IncompleteRead partial ->
  fetch net url = Some partial
  /\ get_dynamic_feeds chk json_feed_urls decode net kind url
     = get_dynamic_feeds chk json_feed_urls decode
         (fun _ => ReadAll partial) kind url
  /\ match get_dynamic_feeds chk json_feed_urls decode net kind url with
     | Some feeds =>
         exists urls,
           extracted_from json_feed_urls decode kind partial urls
           /\ forall u : string,
                u ∈ feeds
                <-> exists v, v ∈ urls /\ sanitize_value chk v = Some u
     | None =>
         (kind = "json" /\ json_feed_urls partial = None)
         \/ (kind = "opml" /\ decode partial = None)
         \/ (kind <> "json" /\ kind <> "opml")
         \/ exists urls v,
              extracted_from json_feed_urls decode kind partial urls
              /\ v ∈ urls /\ sanitize_value chk v = None
     end.
Proof.
  intros Hnet.
  assert (Hf : fetch net url = Some partial) by (unfold fetch; by rewrite Hnet).
  split; [done|]. split; [unfold get_dynamic_feeds; by rewrite Hf|].
  assert (Hset : forall urls,
    extracted_from json_feed_urls decode kind partial urls ->
    match sanitize_all chk urls with
    | Some feeds =>
        exists urls,
          extracted_from json_feed_urls decode kind partial urls
          /\ forall u : string,
               u ∈ feeds
               <-> exists v, v ∈ urls /\ sanitize_value chk v = Some u
    | None =>
        (kind = "json" /\ json_feed_urls partial = None)
        \/ (kind = "opml" /\ decode partial = None)
        \/ (kind <> "json" /\ kind <> "opml")
        \/ exists urls v,
             extracted_from json_feed_urls decode kind partial urls
             /\ v ∈ urls /\ sanitize_value chk v = None
    end).
  { intros urls Hx. pose proof (sanitize_all_spec chk urls) as H.
    destruct (sanitize_all chk urls) as [feeds|].
    - by exists urls.
    - destruct H as (v & Hv & E). do 3 right. by exists urls, v. }
  unfold get_dynamic_feeds. rewrite Hf. cbn [mbind option_bind].
  unfold extract.
  destruct (String.eqb kind "json") eqn:Ej.
  - apply String.eqb_eq in Ej as ->.
    destruct (json_feed_urls partial) as [urls|] eqn:E; cbn [mbind option_bind].
    + apply Hset. by left.
    + by left.
  - apply String.eqb_neq in Ej.
    destruct (String.eqb kind "opml") eqn:Eo.
    + apply String.eqb_eq in Eo as ->.
      destruct (decode partial) as [text|] eqn:E; cbn [mbind option_bind].
      * apply Hset. right. split; [done|]. by exists text.
      * right. by left.
    + apply String.eqb_neq in Eo. cbn [mbind option_bind].
      right. right. by left.
Qed.

Lemma truncated_read_tolerated_witness :
  (fun _ : string => IncompleteRead truncated_opml)
    "https://links.shikiryu.com/api/feeds?format=opml"
  = IncompleteRead truncated_opml
  /\ get_dynamic_feeds accept_all (fun _ => None) Some
       (fun _ => IncompleteRead truncated_opml)
       "opml" "https://links.shikiryu.com/api/feeds?format=opml"
     = Some (list_to_set ["https://example.org/?do=rss"]).
Proof.
  split; [reflexivity|].
  destruct (truncated_read_tolerated accept_all (fun _ => None) Some
              (fun _ => IncompleteRead truncated_opml) "opml"
              "https://links.shikiryu.com/api/feeds?format=opml"
              truncated_opml eq_refl) as (_ & H & _).
  rewrite H.
  assert (E : mapM (sanitize_value accept_all)
                (Str <$> findall_xmlUrl truncated_opml)
              = Some ["https://example.org/?do=rss"])
    by (vm_compute; reflexivity).
  unfold get_dynamic_feeds, fetch, extract, sanitize_all.
  cbn [String.eqb Ascii.eqb Bool.eqb mbind option_bind].
  by rewrite E.
Defined.

(** C7 as stated fails: a payload that parses, cut or not, can hold an
    address that [urlparse] refuses, and then the call fails although the
    payload is well formed. *)
Lemma truncated_read_url_refused :
  fetch (fun _ => IncompleteRead refused_opml)
    "https://links.shikiryu.com/api/feeds?format=opml"
  = Some refused_opml
  /\ extract (fun _ => None) Some "opml" refused_opml
     = Some [Str "http://["]
  /\ forall chk : string -> bool,
       get_dynamic_feeds chk (fun _ => None) Some
         (fun _ => IncompleteRead refused_opml)
         "opml" "https://links.shikiryu.com/api/feeds?format=opml"
       = None.
Proof.
  split; [reflexivity|]. split; [vm_compute; reflexivity|].
  intros chk. vm_compute; reflexivity.
Qed.

(** * Closed instances *)

Lemma unwanted_removal_exhaustive_witness :
  "https://example.org/feed/shaarli/feed/rss/index.php" <> ""
  /\ Urllib.urlparse accept_all
       "https://example.org/feed/shaarli/feed/rss/index.php"
     = Some (Urllib.mkParse "https" "example.org"
               "/feed/shaarli/feed/rss/index.php" "" "" "")
  /\ sanitize_url accept_all
       "https://example.org/feed/shaarli/feed/rss/index.php"
     = Some "https://example.org/shaarli?do=rss"
  /\ Urllib.path
       (sanitize_parts
          (Urllib.mkParse "https" "example.org"
             "/feed/shaarli/feed/rss/index.php" "" "" ""))
     = "shaarli".
Proof.
  split; [discriminate|]. split; [vm_compute; reflexivity|].
  destruct (unwanted_removal_exhaustive accept_all UNWANTED_URL_PATH_PARTS
              "https://example.org/feed/shaarli/feed/rss/index.php"
              (Urllib.mkParse "https" "example.org"
                 "/feed/shaarli/feed/rss/index.php" "" "" ""))
    as (H1 & H2 & _).
  - discriminate.
  - vm_compute; reflexivity.
  - split; [rewrite H1 | rewrite H2]; vm_compute; reflexivity.
Defined.

Lemma sanitize_url_idempotent_witness :
  Urllib.urlparse accept_all "https://example.org/shaarli/feed/rss?do=atom"
  = Some (Urllib.mkParse "https" "example.org" "/shaarli/feed/rss" ""
            "do=atom" "")
  /\ exists out,
       sanitize_url accept_all "https://example.org/shaarli/feed/rss?do=atom"
       = Some out
       /\ sanitize_url accept_all out = Some out.
Proof.
  split; [vm_compute; reflexivity|].
  apply (sanitize_url_idempotent accept_all
           "https://example.org/shaarli/feed/rss?do=atom"
           (Urllib.mkParse "https" "example.org" "/shaarli/feed/rss" ""
              "do=atom" "")).
  - vm_compute; reflexivity.
  - discriminate.
  - vm_compute; reflexivity.
Defined.

(** C1 as stated fails: the first pass removes the last segment [feed] and
    leaves [feed;x] last, which the second pass reads as the segment [feed]
    with the parameter [x], and removes.  Without a scheme in the input,
    the first pass can also leave a path that the second reads as a
    scheme. *)
Lemma sanitize_url_not_idempotent :
  sanitize_url accept_all "https://example.org/feed;x/feed"
  = Some "https://example.org/feed;x?do=rss"
  /\ sanitize_url accept_all "https://example.org/feed;x?do=rss"
     = Some "https://example.org/;x?do=rss"
  /\ "https://example.org/feed;x?do=rss" <> "https://example.org/;x?do=rss"
  /\ sanitize_url accept_all "feed/A:x" = Some "A:x?do=rss"
  /\ sanitize_url accept_all "A:x?do=rss" = Some "a:x?do=rss".
Proof.
  split; [vm_compute; reflexivity|]. split; [vm_compute; reflexivity|].
  split; [discriminate|]. split; vm_compute; reflexivity.
Qed.

Lemma query_replacement_total_witness :
  "https://example.org/rss.php?kw=computer%20services" <> ""
  /\ exists base,
       sanitize_url accept_all
         "https://example.org/rss.php?kw=computer%20services"
       = Some (base +:+ "?" +:+ "mode=links&do=rss" +:+ "")
       /\ Py.contains "?" base = false.
Proof.
  split; [discriminate|].
  destruct (query_replacement_total accept_all
              "https://example.org/rss.php?kw=computer%20services"
              (Urllib.mkParse "https" "example.org" "/rss.php" ""
                 "kw=computer%20services" ""))
    as (base & H1 & H2 & _).
  - discriminate.
  - vm_compute; reflexivity.
  - exists base. split; [exact H1 | exact H2].
Defined.

Lemma sanitize_url_output_shape_witness :
  Urllib.urlparse accept_all "https://example.org/feed/atom#top"
  = Some (Urllib.mkParse "https" "example.org" "/feed/atom" "" "" "top")
  /\ exists out,
       sanitize_url accept_all "https://example.org/feed/atom#top" = Some out
       /\ absolute_url accept_all out = true.
Proof.
  split; [vm_compute; reflexivity|].
  destruct (sanitize_url_output_shape accept_all
              "https://example.org/feed/atom#top"
              (Urllib.mkParse "https" "example.org" "/feed/atom" "" "" "top"))
    as (_ & _ & out & H1 & H2 & _).
  - vm_compute; reflexivity.
  - discriminate.
  - exists out. split; [exact H1 | exact H2].
Defined.

(** C6 as stated fails: on [example.org/feed] the output has no scheme, so
    it is not an absolute URL; and an input that [urlparse] refuses has no
    output at all. *)
Lemma sanitize_url_output_not_absolute :
  sanitize_url accept_all "example.org/feed" = Some "example.org?do=rss"
  /\ absolute_url accept_all "example.org?do=rss" = false
  /\ sanitize_url accept_all "http://[" = None.
Proof. repeat split; vm_compute; reflexivity. Qed.

Lemma sanitize_url_frame_witness :
  "https://user@example.org:8080/shaarli/feed;v=1?do=atom#top" <> ""
  /\ sanitize_url accept_all
       "https://user@example.org:8080/shaarli/feed;v=1?do=atom#top"
     = Some (Urllib.urlunparse
               (sanitize_parts
                  (Urllib.mkParse "https" "user@example.org:8080"
                     "/shaarli/feed" "v=1" "do=atom" "top"))).
Proof.
  split; [discriminate|].
  apply (sanitize_url_frame accept_all
           "https://user@example.org:8080/shaarli/feed;v=1?do=atom#top"
           (Urllib.mkParse "https" "user@example.org:8080"
              "/shaarli/feed" "v=1" "do=atom" "top")).
  - discriminate.
  - vm_compute; reflexivity.
Defined.

(** * Further properties of the path cleaning (lines 95 to 99) *)

Section PathAlgebra.

Implicit Types (a b p x : string) (l : list string).

Lemma split_nonempty c p : Py.split c p <> [].
Proof.
  destruct p as [|d p]; simpl; [done|].
  destruct (Ascii.eqb c d); [done|]. by destruct (Py.split c p).
Qed.

Lemma split_app c a b :
  Py.split c (a +:+ String c b) = Py.split c a ++ Py.split c b.
Proof.
  induction a as [|d a IH]; simpl.
  - by rewrite Ascii.eqb_refl.
  - destruct (Ascii.eqb c d); [by rewrite IH|]. rewrite IH.
    pose proof (split_nonempty c a). by destruct (Py.split c a).
Qed.

Lemma keep_split_lstrip p :
  List.filter Pathlib.keep_part (Py.split "/" (Py.lstrip Pathlib.is_sep p))
  = List.filter Pathlib.keep_part (Py.split "/" p).
Proof.
  induction p as [|c p IH]; [done|]. cbn [Py.lstrip].
  destruct (Pathlib.is_sep c) eqn:E; [|done].
  unfold Pathlib.is_sep in E. apply Ascii.eqb_eq in E as ->. by rewrite IH.
Qed.

Lemma segments_app a b : segments (a +:+ "/" +:+ b) = segments a ++ segments b.
Proof.
  unfold segments. rewrite !keep_split_lstrip.
  change ("/" +:+ b) with (String "/" b).
  by rewrite split_app, List.filter_app.
Qed.

Lemma join_good_empty l :
  Forall (fun x => good_seg x = true) l -> Py.join "/" l = "" -> l = [].
Proof.
  intros Hl E. destruct l as [|x l]; [done|].
  by apply join_good_nonempty in Hl.
Qed.

Lemma join_app l1 l2 :
  Forall (fun x => good_seg x = true) l1 ->
  Forall (fun x => good_seg x = true) l2 ->
  Py.join "/" (l1 ++ l2) = path_join (Py.join "/" l1) (Py.join "/" l2).
Proof.
  intros H1 H2. induction H1 as [|x l1 Hx H1 IH].
  - simpl. by destruct (Py.join "/" l2).
  - destruct l1 as [|y l1].
    + simpl app. apply good_seg_head in Hx as (c & r & -> & _).
      destruct l2 as [|z l2]; [done|]. rewrite join_cons.
      pose proof (join_good_nonempty (z :: l2) ltac:(done) H2) as Hne.
      change (Py.join "/" [String c r]) with (String c r).
      by destruct (Py.join "/" (z :: l2)).
    + change ((x :: y :: l1) ++ l2) with (x :: y :: (l1 ++ l2)).
      rewrite !join_cons. change (y :: l1 ++ l2) with ((y :: l1) ++ l2).
      rewrite IH.
      pose proof (join_good_nonempty (y :: l1) ltac:(done) H1) as Hne1.
      apply good_seg_head in Hx as (c & r & -> & _).
      destruct (Py.join "/" (y :: l1)) as [|c1 t1] eqn:E1; [done|].
      destruct (Py.join "/" l2) as [|c2 t2]; [done|].
      cbn [path_join String.append]. by rewrite !app_assoc.
Qed.

Lemma clean_path_kept p : clean_path p = Py.join "/" (kept_segments p).
Proof. apply clean_path_in_eq. Qed.

Lemma kept_segments_app a b :
  kept_segments (a +:+ "/" +:+ b) = kept_segments a ++ kept_segments b.
Proof. unfold kept_segments. by rewrite segments_app, List.filter_app. Qed.

Lemma kept_segments_slash_l a : kept_segments ("/" +:+ a) = kept_segments a.
Proof.
  change ("/" +:+ a) with ("" +:+ "/" +:+ a). by rewrite kept_segments_app.
Qed.

Lemma kept_segments_slash_r a : kept_segments (a +:+ "/") = kept_segments a.
Proof.
  rewrite <- (app_nil_r (a +:+ "/")), app_assoc, kept_segments_app.
  apply List.app_nil_r.
Qed.

(** X1: the cleaned path of [a/b] is the cleaned path of [a] and that of
    [b] put end to end, with a slash between them when neither is empty. *)
Theorem clean_path_compose a b :
  clean_path (a +:+ "/" +:+ b) = path_join (clean_path a) (clean_path b).
Proof.
  rewrite !clean_path_kept, kept_segments_app.
  apply join_app; apply kept_good.
Qed.

(** X2: cleaning is idempotent, and a slash put before or after the path,
    or doubled inside it, changes nothing. *)
Theorem clean_path_slashes a b :
  clean_path (clean_path a) = clean_path a
  /\ clean_path ("/" +:+ a) = clean_path a
  /\ clean_path (a +:+ "/") = clean_path a
  /\ clean_path (a +:+ "//" +:+ b) = clean_path (a +:+ "/" +:+ b).
Proof.
  split; [|split; [|split]].
  - apply (clean_path_again _ ""). by left.
  - by rewrite !clean_path_kept, kept_segments_slash_l.
  - by rewrite !clean_path_kept, kept_segments_slash_r.
  - change ("//" +:+ b) with ("/" +:+ "/" +:+ b).
    by rewrite !clean_path_kept, !kept_segments_app, kept_segments_slash_l.
Qed.

(** X3: an unwanted segment, or a [.], put between two parts of a path
    leaves no trace in the cleaned path. *)
Theorem unwanted_segment_invisible a b w :
  Py.mem w ("." :: UNWANTED_URL_PATH_PARTS) = true ->
  clean_path (a +:+ "/" +:+ w +:+ "/" +:+ b) = clean_path (a +:+ "/" +:+ b)
  /\ clean_path (a +:+ "/" +:+ w) = clean_path a
  /\ clean_path (w +:+ "/" +:+ b) = clean_path b.
Proof.
  intros Hw.
  assert (H : kept_segments w = []).
  { apply mem_In in Hw. simpl in Hw.
    repeat (destruct Hw as [<-|Hw]; [vm_compute; reflexivity|]). done. }
  rewrite !clean_path_kept, !kept_segments_app, H.
  by rewrite List.app_nil_r.
Qed.

End PathAlgebra.

Lemma unwanted_segment_invisible_witness :
  Py.mem "index.php" ("." :: UNWANTED_URL_PATH_PARTS) = true
  /\ clean_path ("/shaarli" +:+ "/" +:+ "index.php" +:+ "/" +:+ "links")
     = clean_path ("/shaarli" +:+ "/" +:+ "links").
Proof.
  split; [reflexivity|].
  apply (unwanted_segment_invisible "/shaarli" "links" "index.php").
  reflexivity.
Defined.

(** * Further properties of [sanitize_url] *)

Section SanitizeMore.

Variable chk : string -> bool.

Implicit Types (u v rest out : string) (c b : ascii).

Lemma urlsplit_tail_eq u :
  Urllib.urlsplit chk u
  = (let '(scheme, url) := Urllib.split_scheme (Urllib.strip_unsafe u) in
     urlsplit_tail chk scheme url).
Proof. unfold Urllib.urlsplit, urlsplit_tail. by destruct (Urllib.split_scheme _). Qed.

Lemma urlparse_eq u :
  Urllib.urlparse chk u = params_stage <$> Urllib.urlsplit chk u.
Proof.
  unfold Urllib.urlparse, params_stage.
  destruct (Urllib.urlsplit chk u) as [[s n url q f]|]; [|done].
  cbn [fmap option_fmap option_map Urllib.s_scheme Urllib.s_url
       Urllib.s_netloc Urllib.s_query Urllib.s_fragment].
  match goal with
  | |- context [match ?x with (_, _) => _ end] => by destruct x
  end.
Qed.

Lemma lstrip_result (p : ascii -> bool) u c r :
  Py.lstrip p u = String c r -> p c = false.
Proof.
  induction u as [|d u IH]; simpl; [done|].
  destruct (p d) eqn:E; [done|]. by intros [= <- _].
Qed.

Lemma space_unsafe c :
  Urllib.whatwg_c0_control_or_space c = false -> safe_char c = true.
Proof.
  destruct c as [[] [] [] [] [] [] [] []]; vm_compute; intros; congruence.
Qed.

Lemma delete_head b c r :
  Ascii.eqb b c = false -> delete b (String c r) = String c (delete b r).
Proof. simpl. by intros ->. Qed.

Lemma delete_unsafe_head c r :
  safe_char c = true ->
  delete_unsafe (String c r) = String c (delete_unsafe r).
Proof.
  rewrite safe_char_spec, !andb_true_iff. unfold isnt.
  rewrite !negb_true_iff. intros (H1 & H2 & H3 & _). unfold delete_unsafe.
  by rewrite !delete_head.
Qed.

Lemma delete_app b u v : delete b (u +:+ v) = delete b u +:+ delete b v.
Proof.
  induction u as [|c u IH]; simpl; [done|].
  destruct (Ascii.eqb b c); simpl; by rewrite IH.
Qed.

Lemma delete_unsafe_app u v :
  delete_unsafe (u +:+ v) = delete_unsafe u +:+ delete_unsafe v.
Proof. unfold delete_unsafe. by rewrite !delete_app. Qed.

Lemma delete_unsafe_id u : Py.all safe_char u = true -> delete_unsafe u = u.
Proof.
  rewrite all_safe, !andb_true_iff. intros [[H1 H2] H3]. unfold delete_unsafe.
  rewrite (delete_id "009"), (delete_id "013"), (delete_id "010"); done.
Qed.

Lemma strip_unsafe_delete u :
  Urllib.strip_unsafe u
  = delete_unsafe (Py.lstrip Urllib.whatwg_c0_control_or_space u).
Proof. apply strip_unsafe_eq. Qed.

Lemma strip_unsafe_idem u :
  Urllib.strip_unsafe (Urllib.strip_unsafe u) = Urllib.strip_unsafe u.
Proof.
  pose proof (strip_unsafe_safe u) as Hs.
  destruct (Urllib.strip_unsafe u) as [|c r] eqn:E; [vm_compute; reflexivity|].
  apply strip_unsafe_id; [|done].
  rewrite strip_unsafe_delete in E.
  destruct (Py.lstrip _ u) as [|c0 r0] eqn:El; [done|].
  apply lstrip_result in El.
  rewrite delete_unsafe_head in E by (by apply space_unsafe).
  by injection E as <- _.
Qed.

Lemma urlparse_strip u :
  Urllib.urlparse chk u = Urllib.urlparse chk (Urllib.strip_unsafe u).
Proof. by rewrite !urlparse_eq, !urlsplit_tail_eq, strip_unsafe_idem. Qed.

(** X4: leading control characters and spaces, and tabs, carriage returns
    and line feeds anywhere, do not count: the result is that of the input
    without them; when nothing is left of a non-empty input, it is
    [/?do=rss]. *)
Theorem sanitize_url_ignores_unsafe u :
  sanitize_url chk u
  = match Urllib.strip_unsafe u with
    | EmptyString =>
        match u with
        | EmptyString => Some ""
        | _ => Some "/?do=rss"
        end
    | v => sanitize_url chk v
    end.
Proof.
  destruct u as [|c0 u0]; [vm_compute; reflexivity|].
  unfold sanitize_url at 1. rewrite urlparse_strip.
  destruct (Urllib.strip_unsafe (String c0 u0)) as [|c r].
  - vm_compute; reflexivity.
  - done.
Qed.

Lemma strip_unsafe_keeps (q : ascii -> bool) u :
  Py.all q u = true -> Py.all q (Urllib.strip_unsafe u) = true.
Proof.
  intros H. rewrite strip_unsafe_eq.
  by apply delete_all, delete_all, delete_all, lstrip_all.
Qed.

Lemma netloc_ok_plain n :
  Py.contains "[" n = false -> Py.contains "]" n = false ->
  Urllib.netloc_ok chk n = true.
Proof. intros H1 H2. unfold Urllib.netloc_ok. by rewrite H1, H2. Qed.

Lemma split_scheme_keeps (q : ascii -> bool) u s rest :
  Urllib.split_scheme u = (s, rest) -> Py.all q u = true ->
  Py.all q rest = true.
Proof.
  intros H Hu. apply split_scheme_spec in H as [[_ ->]|(_ & i & ->)]; [done|].
  by apply all_drop.
Qed.

End SanitizeMore.

(** X5: on an ASCII input without a bracket [urlparse] does not raise: the
    netloc it splits off is ASCII, so [_checknetloc] returns at its first
    line, and no bracket is there to check.  So [sanitize_url] returns, and
    what it returns does not depend on the check of bracketed hosts. *)
Theorem sanitize_url_returns_without_brackets (u : string) :
  isascii u = true ->
  Py.contains "[" u = false -> Py.contains "]" u = false ->
  exists r out,
    (forall chk, Urllib.urlsplit chk u = Some r)
    /\ isascii (Urllib.s_netloc r) = true
    /\ forall chk, sanitize_url chk u = Some out.
Proof.
  intros Ha Ho Hc.
  destruct (Urllib.split_scheme (Urllib.strip_unsafe u)) as [s u2] eqn:E1.
  destruct (Urllib.split_netloc u2) as [n u3] eqn:E2.
  destruct (Urllib.split_once "#" u3) as [u4 f] eqn:E4.
  destruct (Urllib.split_once "?" u4) as [url q] eqn:E5.
  assert (Hn : forall p : ascii -> bool, Py.all p u = true -> Py.all p n = true).
  { intros p Hp. refine (proj1 (split_netloc_all _ _ _ _ E2 _)).
    eapply split_scheme_keeps; [exact E1|]. by apply strip_unsafe_keeps. }
  assert (Hr : forall chk,
             Urllib.urlsplit chk u = Some (Urllib.mkSplit s n url q f)).
  { intros chk. rewrite urlsplit_tail_eq, E1. unfold urlsplit_tail. rewrite E2.
    rewrite netloc_ok_plain, E4, E5;
      [done | | ]; apply contains_false, Hn; by apply contains_false. }
  exists (Urllib.mkSplit s n url q f).
  exists (match u with
          | EmptyString => ""
          | _ => Urllib.urlunparse
                   (sanitize_parts (params_stage (Urllib.mkSplit s n url q f)))
          end).
  split; [exact Hr|]. split; [by apply Hn|].
  intros chk. destruct u as [|c u]; [done|].
  unfold sanitize_url. by rewrite urlparse_eq, Hr.
Qed.

Lemma sanitize_url_returns_without_brackets_witness :
  isascii "https://example.org/shaarli/?do=atom" = true
  /\ Py.contains "[" "https://example.org/shaarli/?do=atom" = false
  /\ Py.contains "]" "https://example.org/shaarli/?do=atom" = false
  /\ forall chk, sanitize_url chk "https://example.org/shaarli/?do=atom"
                 = Some "https://example.org/shaarli?do=rss".
Proof.
  split; [reflexivity|]. split; [reflexivity|]. split; [reflexivity|].
  destruct (sanitize_url_returns_without_brackets
              "https://example.org/shaarli/?do=atom")
    as (r & out & _ & _ & H); [reflexivity..|].
  intros chk. rewrite H. rewrite <- (H accept_all). vm_compute; reflexivity.
Defined.

(** X6: the result holds no tab, carriage return or line feed, whatever
    the input held: written out, it stays on one line. *)
Theorem sanitize_url_single_line (chk : string -> bool) (u out : string) :
  sanitize_url chk u = Some out -> Py.all safe_char out = true.
Proof.
  unfold sanitize_url. destruct u as [|c u]; [by intros [= <-]|].
  destruct (Urllib.urlparse chk (String c u)) as [r|] eqn:Hr; [|done].
  intros H.
  assert (E : out = Urllib.urlunparse (sanitize_parts r)) by congruence.
  subst out. clear H. apply urlparse_ok in Hr.
  destruct Hr as [Hsch Hnd Hck Hpq Hpf Haq Haf Has Hps Sn Sp Sa Sf].
  rewrite sanitize_formula, !all_app.
  assert (Hs : Py.all safe_char (Urllib.scheme r) = true).
  { destruct Hsch as [-> | H]; [done|]. by apply valid_scheme_safe. }
  rewrite rooted_safe by (by apply body_all).
  unfold colon_part, slashes_part, hash_part.
  destruct (feed_query_cases (clean_path (Urllib.path r))) as [-> | ->];
    destruct (Urllib.nonempty (Urllib.scheme r)), (hierarchical _ _),
      (Urllib.nonempty (Urllib.fragment r));
    rewrite ?all_app, ?Hs, ?Sn, ?Sf; reflexivity.
Qed.

Lemma sanitize_url_single_line_witness :
  sanitize_url accept_all (String "009" " https://example.org/fe" +:+ String "010" "ed/rss")
  = Some "https://example.org/?do=rss"
  /\ Py.all safe_char "https://example.org/?do=rss" = true.
Proof.
  split; [vm_compute; reflexivity|].
  apply (sanitize_url_single_line accept_all
           (String "009" " https://example.org/fe" +:+ String "010" "ed/rss")).
  vm_compute; reflexivity.
Defined.

(** X7: the doctests of [sanitize_url], that of lines 81 and 82 apart, hold
    of the code. *)
Theorem sanitize_url_doctests (chk : string -> bool) :
  map (fun io => sanitize_url chk io.1) passing_doctests
  = map (fun io => Some io.2) passing_doctests.
Proof. vm_compute; reflexivity. Qed.

Section SchemeSwap.

Variable chk : string -> bool.

Lemma strip_unsafe_scheme s rest :
  valid_scheme s = true ->
  Urllib.strip_unsafe (s +:+ ":" +:+ rest) = s +:+ ":" +:+ delete_unsafe rest.
Proof.
  intros Hs. rewrite strip_unsafe_delete.
  destruct (valid_scheme_head _ Hs) as (c & r & -> & Hc).
  cbn [String.append Py.lstrip]. rewrite Hc.
  change (String c (r +:+ String ":" rest))
    with (String c r +:+ String ":" rest).
  rewrite delete_unsafe_app.
  rewrite (delete_unsafe_id (String c r)) by (by apply valid_scheme_safe).
  by rewrite delete_unsafe_head.
Qed.

Lemma urlsplit_with_scheme s rest :
  valid_scheme s = true ->
  Urllib.urlsplit chk (s +:+ ":" +:+ rest)
  = urlsplit_tail chk s (delete_unsafe rest).
Proof.
  intros Hs. rewrite urlsplit_tail_eq, strip_unsafe_scheme by done.
  by rewrite split_scheme_valid.
Qed.

Lemma sanitize_url_with_scheme s rest :
  valid_scheme s = true ->
  sanitize_url chk (s +:+ ":" +:+ rest)
  = (fun r => Urllib.urlunparse (sanitize_parts (params_stage r)))
      <$> urlsplit_tail chk s (delete_unsafe rest).
Proof.
  intros Hs. unfold sanitize_url.
  rewrite urlparse_eq, urlsplit_with_scheme by done.
  destruct (valid_scheme_head _ Hs) as (c & r & -> & _).
  cbn [String.append]. by destruct (urlsplit_tail chk _ _).
Qed.

(** X8: [sanitize_url] keeps the scheme as it finds it: on [http:] and
    [https:] followed by the same text it fails on both or returns two
    results that differ in that leading scheme only. *)
Theorem sanitize_url_scheme_swap (rest : string) :
  match sanitize_url chk ("http:" +:+ rest),
        sanitize_url chk ("https:" +:+ rest) with
  | Some a, Some b => exists x, a = "http:" +:+ x /\ b = "https:" +:+ x
  | None, None => True
  | _, _ => False
  end.
Proof.
  change ("http:" +:+ rest) with ("http" +:+ ":" +:+ rest).
  change ("https:" +:+ rest) with ("https" +:+ ":" +:+ rest).
  rewrite !sanitize_url_with_scheme by reflexivity.
  unfold urlsplit_tail.
  destruct (Urllib.split_netloc (delete_unsafe rest)) as [n u3].
  destruct (Urllib.netloc_ok chk n); cbn [negb]; [|done].
  destruct (Urllib.split_once "#" u3) as [u4 f].
  destruct (Urllib.split_once "?" u4) as [url q].
  cbn [fmap option_fmap option_map]. unfold params_stage.
  cbn [Urllib.s_scheme Urllib.s_netloc Urllib.s_url Urllib.s_query
       Urllib.s_fragment].
  replace (Py.mem "http" Urllib.uses_params) with true by reflexivity.
  replace (Py.mem "https" Urllib.uses_params) with true by reflexivity.
  destruct (if true && Py.contains ";" url
            then Urllib._splitparams url else (url, "")) as [p pa].
  rewrite !sanitize_formula.
  cbn [Urllib.scheme Urllib.netloc Urllib.path Urllib.params Urllib.fragment].
  unfold canonical_body, rooted, slashes_part, colon_part, hierarchical.
  cbn [Urllib.scheme Urllib.netloc Urllib.path Urllib.params Urllib.fragment
       Urllib.nonempty].
  replace (Py.mem "http" Urllib.uses_netloc) with true by reflexivity.
  replace (Py.mem "https" Urllib.uses_netloc) with true by reflexivity.
  rewrite !orb_true_r. cbn [andb].
  eexists. split; rewrite !app_assoc; reflexivity.
Qed.

End SchemeSwap.

(** * The sets of canonical URLs (lines 119, 123, 127 and 131) *)

Section Loaders.

Variable chk : string -> bool.


Lemma partition_none c s :
  Py.contains c s = false -> Py.partition c s = (s, false, "").
Proof.
  intros H. unfold Py.partition. apply find_none in H. by rewrite H.
Qed.

Lemma sanitized_query_text (r : Urllib.ParseResult) :
  parse_ok chk r ->
  query_text (Urllib.urlunparse (sanitize_parts r))
  = feed_query (clean_path (Urllib.path r)).
Proof.
  intros Hok. rewrite sanitize_formula.
  set (q := feed_query _).
  assert (Hq : Py.contains "#" q = false).
  { unfold q. by destruct (feed_query_cases (clean_path (Urllib.path r)))
      as [-> | ->]. }
  set (base := colon_part (Urllib.scheme r)
               +:+ slashes_part (Urllib.scheme r) (Urllib.netloc r)
               +:+ rooted (Urllib.scheme r) (Urllib.netloc r)
                     (canonical_body r)).
  assert (Hb : Py.contains "?" base = false)
    by (apply (base_contains chk); [done | by left]).
  match goal with
  | |- query_text ?t = _ =>
      replace t with (base +:+ String "?" (q +:+ hash_part (Urllib.fragment r)))
        by (unfold base; by rewrite !app_assoc)
  end.
  unfold query_text. rewrite partition_app_sep by done.
  unfold hash_part. destruct (Urllib.fragment r) as [|c f]; cbn [Urllib.nonempty].
  - by rewrite app_nil_r, partition_none.
  - change ("#" +:+ String c f) with (String "#" (String c f)).
    by rewrite partition_app_sep.
Qed.

Lemma sanitize_value_query (v : pyval) (u : string) :
  sanitize_value chk v = Some u ->
  u = "" \/ query_text u = "do=rss" \/ query_text u = "mode=links&do=rss".
Proof.
  destruct v as [s| |]; simpl; [|intros [= <-]; by left|done].
  unfold sanitize_url. destruct s as [|c s]; [intros [= <-]; by left|].
  destruct (Urllib.urlparse chk (String c s)) as [r|] eqn:Hr; [|done].
  intros H.
  assert (E : u = Urllib.urlunparse (sanitize_parts r)) by congruence.
  subst u. right. rewrite sanitized_query_text by (by eapply urlparse_ok).
  destruct (feed_query_cases (clean_path (Urllib.path r))) as [-> | ->]; auto.
Qed.

(** X10: every member of a set built by [sanitize_url] is the empty string
    or a URL whose query is one of the two fixed ones. *)
Theorem canonical_set_queries (urls : list pyval) (feeds : gset string)
    (u : string) :
  sanitize_all chk urls = Some feeds -> u ∈ feeds ->
  u = "" \/ query_text u = "do=rss" \/ query_text u = "mode=links&do=rss".
Proof.
  intros Hs Hu. pose proof (sanitize_all_spec chk urls) as H. rewrite Hs in H.
  apply H in Hu as (v & _ & Hv). by eapply sanitize_value_query.
Qed.

End Loaders.

Lemma canonical_set_queries_witness :
  sanitize_all accept_all
    [Str "https://example.org/rss.php?x=1#top"; Falsy;
     Str "https://example.org/feed/atom"]
  = Some ({["https://example.org/rss.php?mode=links&do=rss#top"]}
          ∪ {[""]} ∪ {["https://example.org/?do=rss"]})
  /\ ("https://example.org/rss.php?mode=links&do=rss#top" = ""
      \/ query_text "https://example.org/rss.php?mode=links&do=rss#top"
         = "do=rss"
      \/ query_text "https://example.org/rss.php?mode=links&do=rss#top"
         = "mode=links&do=rss").
Proof.
  assert (H : sanitize_all accept_all
                [Str "https://example.org/rss.php?x=1#top"; Falsy;
                 Str "https://example.org/feed/atom"]
              = Some ({["https://example.org/rss.php?mode=links&do=rss#top"]}
                      ∪ {[""]} ∪ {["https://example.org/?do=rss"]})).
  { vm_compute; reflexivity. }
  split; [exact H|].
  apply (canonical_set_queries accept_all _ _ _ H).
  apply elem_of_union_l, elem_of_union_l, elem_of_singleton. reflexivity.
Defined.

(** * The OPML scan (line 118) *)

Section Findall.

Implicit Types (s u rest pre run after : string) (c : ascii).

Lemma span_until_spec c s run after :
  span_until c s = (run, after) ->
  s = run +:+ after /\ Py.contains c run = false
  /\ (after = "" \/ exists t, after = String c t).
Proof.
  revert run after. induction s as [|d s IH]; simpl; intros run after.
  - intros [= <- <-]. auto.
  - destruct (Ascii.eqb c d) eqn:E.
    + intros [= <- <-]. apply Ascii.eqb_eq in E as ->. eauto.
    + destruct (span_until c s) as [a b]. intros [= <- <-].
      destruct (IH a b eq_refl) as (-> & Ha & Hb). simpl. by rewrite E.
Qed.

Lemma span_until_app c u rest :
  Py.contains c u = false ->
  span_until c (u +:+ String c rest) = (u, String c rest).
Proof.
  induction u as [|d u IH]; simpl.
  - by rewrite Ascii.eqb_refl.
  - destruct (Ascii.eqb c d); [done|]. intros H. by rewrite IH.
Qed.

(** The scan does not depend on its bound, once that is the length. *)
Lemma findall_scan_fuel n m s :
  String.length s <= n -> String.length s <= m ->
  findall_xmlUrl_scan n s = findall_xmlUrl_scan m s.
Proof.
  revert m s. induction n as [|n IH]; intros m s Hn Hm.
  - destruct s; simpl in Hn; [|lia]. by destruct m.
  - destruct s as [|c s]; [by destruct m|].
    destruct m as [|m]; [simpl in Hm; lia|].
    cbn [findall_xmlUrl_scan]. simpl in Hn, Hm.
    destruct (String.prefix xmlUrl_open (String c s)); [|apply IH; lia].
    destruct (span_until dquote _) as [run after] eqn:E.
    pose proof (span_until_spec _ _ _ _ E) as (Hs & _ & _).
    apply (f_equal String.length) in Hs.
    rewrite drop_length, length_app in Hs. simpl in Hs.
    destruct run as [|c1 run]; [apply IH; lia|].
    destruct after as [|c2 after]; [apply IH; lia|].
    f_equal. simpl in Hs. apply IH; lia.
Qed.

Lemma findall_scan_quotable n s :
  forallb quotable (findall_xmlUrl_scan n s) = true.
Proof.
  revert s. induction n as [|n IH]; intros s; [done|].
  destruct s as [|c s]; [done|]. cbn [findall_xmlUrl_scan].
  destruct (String.prefix xmlUrl_open (String c s)); [|apply IH].
  destruct (span_until dquote _) as [run after] eqn:E.
  pose proof (span_until_spec _ _ _ _ E) as (_ & Hrun & _).
  destruct run as [|c1 run]; [apply IH|].
  destruct after as [|c2 after]; [apply IH|].
  cbn [forallb]. rewrite IH. unfold quotable. by rewrite Hrun.
Qed.

(** X11: every address the OPML scan returns is non-empty and holds no
    double quote. *)
Theorem findall_xmlUrl_quotable (text : string) :
  forallb quotable (findall_xmlUrl text) = true.
Proof. apply findall_scan_quotable. Qed.

(** X12: an attribute [xmlUrl="u"] at the head of the text is read back as
    [u], and the scan goes on after its closing quote. *)
Theorem findall_xmlUrl_head (u rest : string) :
  quotable u = true ->
  findall_xmlUrl (xmlUrl_open +:+ u +:+ String dquote rest)
  = u :: findall_xmlUrl rest.
Proof.
  unfold quotable. rewrite andb_true_iff, negb_true_iff. intros [Hne Hq].
  unfold findall_xmlUrl.
  remember (xmlUrl_open +:+ u +:+ String dquote rest) as s eqn:Hs.
  assert (Hlen : String.length s
                 = S (7 + String.length u + S (String.length rest))).
  { subst s. rewrite !length_app. simpl. lia. }
  rewrite Hlen. destruct s as [|c t]; [done|].
  cbn [findall_xmlUrl_scan]. rewrite Hs.
  rewrite prefix_app, drop_app, span_until_app by done.
  destruct u as [|c1 u]; [done|]. f_equal.
  apply findall_scan_fuel; lia.
Qed.

Lemma forallb_seq_shift (F : nat -> bool) a n :
  forallb F (seq (S a) n) = forallb (fun k => F (S k)) (seq a n).
Proof.
  revert a. induction n as [|n IH]; intros a; [done|].
  cbn [seq forallb]. by rewrite IH.
Qed.

Lemma no_opening_step n c s :
  no_opening_before (S n) (String c s)
  = negb (String.prefix xmlUrl_open (String c s)) && no_opening_before n s.
Proof.
  unfold no_opening_before. cbn [seq forallb]. f_equal.
  by rewrite forallb_seq_shift.
Qed.

(** X13: text in which the opening literal does not occur is passed over:
    the scan of [pre] followed by [s] gives what the scan of [s] gives. *)
Theorem findall_xmlUrl_skip (pre s : string) :
  no_opening_before (String.length pre) (pre +:+ s) = true ->
  findall_xmlUrl (pre +:+ s) = findall_xmlUrl s.
Proof.
  unfold findall_xmlUrl. induction pre as [|c pre IH]; [done|].
  cbn [String.append String.length]. rewrite no_opening_step.
  rewrite andb_true_iff, negb_true_iff. intros [Hp Hrest].
  cbn [findall_xmlUrl_scan]. rewrite Hp, <- IH by done.
  apply findall_scan_fuel; lia.
Qed.

End Findall.

Lemma findall_xmlUrl_head_witness :
  quotable "https://example.org/feed/rss" = true
  /\ findall_xmlUrl
       (xmlUrl_open +:+ "https://example.org/feed/rss"
        +:+ String dquote " />")
     = "https://example.org/feed/rss" :: findall_xmlUrl " />".
Proof.
  split; [reflexivity|].
  apply (findall_xmlUrl_head "https://example.org/feed/rss" " />").
  reflexivity.
Defined.

Lemma findall_xmlUrl_skip_witness :
  no_opening_before (String.length "<outline text=")
    ("<outline text=" +:+ xmlUrl_open) = true
  /\ findall_xmlUrl ("<outline text=" +:+ xmlUrl_open)
     = findall_xmlUrl xmlUrl_open.
Proof.
  split; [reflexivity|].
  apply (findall_xmlUrl_skip "<outline text=" xmlUrl_open). reflexivity.
Defined.

(** * Further properties of the report (lines 142 to 153) *)

Section ReportMore.

Implicit Types (current new bad : gset string) (u s : string).

Lemma report_printed current new bad :
  report current new bad
  = map feed_line (printed_urls current new bad)
    ++ [count_line (length (printed_urls current new bad))].
Proof. unfold report, printed_urls. by rewrite report_loop. Qed.

Lemma printed_urls_spec current new bad u :
  In u (printed_urls current new bad)
  <-> u ∈ new ∖ current ∖ bad /\ keep_feed current u = true.
Proof.
  unfold printed_urls. by rewrite filter_In, <- list_elem_of_In, elem_of_elements.
Qed.

Lemma filter_nil (f : string -> bool) (l : list string) :
  (forall x, In x l -> f x = false) -> List.filter f l = [].
Proof.
  induction l as [|x l IH]; [done|]. intros H. simpl.
  rewrite (H x) by (by left). apply IH. intros y Hy. apply H. by right.
Qed.

(** X14: once the URLs a run has written are added to the current list,
    the next run on the same inputs writes none: its output is the single
    line [+ 0]. *)
Theorem report_converges current new bad :
  report (current ∪ list_to_set (printed_urls current new bad)) new bad
  = ["+ 0"].
Proof.
  set (printed := printed_urls current new bad).
  rewrite report_printed.
  assert (H : printed_urls (current ∪ list_to_set printed) new bad = []).
  { apply filter_nil. intros u Hu.
    apply list_elem_of_In, elem_of_elements in Hu.
    destruct (keep_feed (current ∪ list_to_set printed) u) eqn:E; [|done].
    exfalso. apply keep_feed_spec in E as (Hne & H1 & H2).
    rewrite !elem_of_difference, elem_of_union in Hu.
    destruct Hu as [[Hnew Hcur] Hbad].
    apply Hcur. right. apply elem_of_list_to_set, list_elem_of_In.
    apply printed_urls_spec. split.
    - rewrite !elem_of_difference. repeat split; [done| |done].
      intros ?. apply Hcur. by left.
    - apply keep_feed_spec. repeat split; [done| |].
      + intros ?. apply H1, elem_of_union. by left.
      + intros ?. apply H2, elem_of_union. by left. }
  rewrite H. vm_compute; reflexivity.
Qed.

Lemma replace_absent (old nw s : string) :
  old <> "" -> occurs old s = false -> Py.replace old nw s = s.
Proof.
  intros Hold. induction s as [|c s IH]; intros H.
  - rewrite replace_nil. by destruct old.
  - cbn [occurs] in H. apply orb_false_iff in H as [Hp Hs].
    rewrite replace_cons, Hp by done. by rewrite IH.
Qed.

Lemma replace_head (old nw s : string) :
  unbordered old = true -> old <> "" -> occurs old s = false ->
  Py.replace old nw (old +:+ s) = nw +:+ s.
Proof.
  intros Hub Hold Hs.
  change (old +:+ s) with ("" +:+ old +:+ s).
  rewrite replace_occurrence, replace_nil, replace_absent by done.
  by destruct old.
Qed.

Lemma occurs_https_in_http s :
  occurs "https:" ("http:" +:+ s) = occurs "https:" s.
Proof. destruct s; reflexivity. Qed.

Lemma occurs_http_in_https s :
  occurs "http:" ("https:" +:+ s) = occurs "http:" s.
Proof. destruct s; reflexivity. Qed.

(** X15: when the rest of a URL holds neither [http:] nor [https:], and
    the URL is in the current list under one of the two schemes, it is
    written under neither. *)
Theorem scheme_twin_suppressed current s :
  occurs "http:" s = false -> occurs "https:" s = false ->
  "http:" +:+ s ∈ current \/ "https:" +:+ s ∈ current ->
  keep_feed current ("http:" +:+ s) = false
  /\ keep_feed current ("https:" +:+ s) = false.
Proof.
  intros H1 H2 Hin.
  assert (Ea : Py.replace "http:" "https:" ("http:" +:+ s) = "https:" +:+ s)
    by (by apply replace_head).
  assert (Eb : Py.replace "https:" "http:" ("https:" +:+ s) = "http:" +:+ s)
    by (by apply replace_head).
  assert (Ec : Py.replace "https:" "http:" ("http:" +:+ s) = "http:" +:+ s).
  { apply replace_absent; [done|]. by rewrite occurs_https_in_http. }
  assert (Ed : Py.replace "http:" "https:" ("https:" +:+ s) = "https:" +:+ s).
  { apply replace_absent; [done|]. by rewrite occurs_http_in_https. }
  unfold keep_feed. rewrite Ea, Eb, Ec, Ed.
  destruct Hin as [Hin|Hin];
    rewrite (bool_decide_eq_true_2 _ Hin); cbn [negb];
    by rewrite ?andb_false_r.
Qed.

End ReportMore.

Lemma scheme_twin_suppressed_witness :
  occurs "http:" "//a/?do=rss" = false
  /\ keep_feed {["http://a/?do=rss"]} ("https:" +:+ "//a/?do=rss") = false.
Proof.
  split; [reflexivity|].
  apply (scheme_twin_suppressed {["http://a/?do=rss"]} "//a/?do=rss").
  - reflexivity.
  - reflexivity.
  - left. apply elem_of_singleton. reflexivity.
Defined.

(** * The query rule (line 102) *)

Lemma endswith_iff (p t : string) :
  Py.endswith p t = true <-> exists a, p = a +:+ t.
Proof.
  unfold Py.endswith. rewrite andb_true_iff, Nat.leb_le, String.eqb_eq. split.
  - intros [Hle E]. exists (Py.take (String.length p - String.length t) p).
    rewrite <- E at 2. by rewrite take_drop.
  - intros [a ->]. rewrite length_app. split; [lia|].
    replace (String.length a + String.length t - String.length t)
      with (String.length a) by lia.
    apply drop_app.
Qed.

(** X16: the query is [mode=links&do=rss] exactly when the text of the
    cleaned path ends with [rss.php], whether or not those characters are
    a whole segment; it is [do=rss] in every other case. *)
Theorem feed_query_rule (p : string) :
  (feed_query p = "mode=links&do=rss" <-> exists a, p = a +:+ "rss.php")
  /\ (feed_query p = "do=rss" <-> ~ exists a, p = a +:+ "rss.php").
Proof.
  rewrite <- endswith_iff. unfold feed_query.
  destruct (Py.endswith p "rss.php"); split; split; try done;
    intros H; by destruct H.
Qed.

(** * Failures of [get_dynamic_feeds] and [main] *)


(** X18: [main] writes nothing unless the three lists load and every
    source of [URLS] answers; then what it writes is the report on the
    manual set merged with the sets found. *)
Theorem main_spec
    (chk : string -> bool)
    (json_feed_urls json_items : string -> option (list pyval))
    (decode : string -> option string)
    (net : string -> read_outcome)
    (read_text : string -> option string) :
  match main chk json_feed_urls json_items decode net read_text with
  | Some out =>
      exists current manual bad found,
        get_current_feeds chk json_items read_text = Some current
        /\ get_manual_feeds chk json_items read_text = Some manual
        /\ get_bad_feeds chk json_items read_text = Some bad
        /\ Forall2
             (fun ku d =>
                get_dynamic_feeds chk json_feed_urls decode net ku.1 ku.2
                = Some d)
             URLS found
        /\ out = report current (merged manual found) bad
  | None =>
      get_current_feeds chk json_items read_text = None
      \/ get_manual_feeds chk json_items read_text = None
      \/ get_bad_feeds chk json_items read_text = None
      \/ exists ku,
           ku ∈ URLS
           /\ get_dynamic_feeds chk json_feed_urls decode net ku.1 ku.2 = None
  end.
Proof.
  rewrite main_reports.
  destruct (get_current_feeds chk json_items read_text) as [current|];
    [|by left].
  destruct (get_manual_feeds chk json_items read_text) as [manual|];
    [|by right; left].
  destruct (get_bad_feeds chk json_items read_text) as [bad|];
    [|by right; right; left].
  cbn [mbind option_bind].
  destruct (mapM _ URLS) as [found|] eqn:E; cbn [mbind option_bind].
  - apply mapM_Some in E. by exists current, manual, bad, found.
  - apply mapM_None, Exists_exists in E. by right; right; right.
Qed.

(** * The rewriting of the parsed components (lines 95 to 104) *)

(** X19: on the parsed components the rewriting is idempotent, whatever
    they are: a second pass finds the path cleaned and the query fixed. *)
Theorem sanitize_parts_idempotent (r : Urllib.ParseResult) :
  sanitize_parts (sanitize_parts r) = sanitize_parts r.
Proof.
  unfold sanitize_parts.
  cbn [Urllib.scheme Urllib.netloc Urllib.path Urllib.params Urllib.fragment].
  assert (H : clean_path (or_slash (clean_path (Urllib.path r)))
              = clean_path (Urllib.path r)).
  { destruct (clean_path (Urllib.path r)) as [|c t] eqn:E.
    - vm_compute; reflexivity.
    - cbn [or_slash]. rewrite <- E. apply (clean_path_again _ ""). by left. }
  by rewrite H.
Qed.

(** * The query of the input does not count *)

Section QueryNoise.

Variable chk : string -> bool.

Implicit Types (u q s rest t a b : string) (c d : ascii).

Lemma lstrip_app_stop (p : ascii -> bool) a c b :
  p c = false ->
  Py.lstrip p (a +:+ String c b) = Py.lstrip p a +:+ String c b.
Proof.
  intros Hc. induction a as [|d a IH]; simpl; [by rewrite Hc|].
  by destruct (p d).
Qed.

Lemma strip_unsafe_app_query u q :
  Urllib.strip_unsafe (u +:+ String "?" q)
  = Urllib.strip_unsafe u +:+ String "?" (delete_unsafe q).
Proof.
  rewrite !strip_unsafe_delete, lstrip_app_stop by reflexivity.
  by rewrite delete_unsafe_app, delete_unsafe_head.
Qed.

Lemma find_lt c s i : Py.find c s = Some i -> i < String.length s.
Proof.
  revert i. induction s as [|d s IH]; simpl; [done|]. intros i.
  destruct (Ascii.eqb c d); [intros [= <-]; lia|].
  destruct (Py.find c s) as [j|]; simpl; [|done].
  intros [= <-]. specialize (IH j eq_refl). lia.
Qed.

Lemma find_app_some c a b i :
  Py.find c a = Some i -> Py.find c (a +:+ b) = Some i.
Proof.
  revert i. induction a as [|d a IH]; simpl; [done|]. intros i.
  destruct (Ascii.eqb c d); [done|].
  destruct (Py.find c a) as [j|]; simpl; [|done].
  intros [= <-]. by rewrite (IH j).
Qed.

Lemma find_app_none c a b :
  Py.contains c a = false ->
  Py.find c (a +:+ b) = option_map (Nat.add (String.length a)) (Py.find c b).
Proof.
  induction a as [|d a IH]; simpl.
  - by destruct (Py.find c b).
  - destruct (Ascii.eqb c d); [done|]. intros H. rewrite IH by done.
    by destruct (Py.find c b).
Qed.

Lemma take_app_ge a b n :
  String.length a <= n ->
  Py.take n (a +:+ b) = a +:+ Py.take (n - String.length a) b.
Proof.
  revert n. induction a as [|d a IH]; intros n; simpl.
  - by rewrite Nat.sub_0_r.
  - destruct n as [|n]; [lia|]. intros H. simpl. f_equal. apply IH. lia.
Qed.

Lemma split_scheme_app_query u q s rest :
  Urllib.split_scheme u = (s, rest) ->
  Urllib.split_scheme (u +:+ String "?" q) = (s, rest +:+ String "?" q).
Proof.
  unfold Urllib.split_scheme.
  destruct (Py.find ":" u) as [i|] eqn:Ef.
  - rewrite (find_app_some _ _ _ _ Ef). pose proof (find_lt _ _ _ Ef) as Hi.
    destruct i as [|i]; [by intros [= <- <-]|].
    destruct u as [|c0 u]; [done|].
    change (String c0 u +:+ String "?" q)
      with (String c0 (u +:+ String "?" q)).
    change (String c0 (u +:+ String "?" q))
      with (String c0 u +:+ String "?" q) at 2 3 4.
    rewrite take_app_le by lia.
    destruct (Py.is_ascii_alpha c0 && _);
      intros H; apply pair_equal_spec in H as [<- <-]; [|done].
    change (String c0 (u +:+ String "?" q))
      with (String c0 u +:+ String "?" q).
    by rewrite drop_app_le by lia.
  - apply find_none in Ef. intros [= <- <-].
    rewrite find_app_none by done.
    destruct (Py.find ":" (String "?" q)) as [k|] eqn:Ek; [|by destruct (_ +:+ _)].
    cbn [option_map]. simpl in Ek. destruct (Py.find ":" q) as [k'|]; [|done].
    injection Ek as <-.
    destruct u as [|c0 u]; [done|].
    cbn [String.length String.append Nat.add].
    change (String c0 (u +:+ String "?" q))
      with (String c0 u +:+ String "?" q).
    rewrite take_app_ge by (simpl; lia).
    replace (S (String.length u + S k') - String.length (String c0 u))
      with (S k') by (simpl; lia).
    cbn [Py.take]. rewrite all_app. cbn [Py.all].
    change (Py.contains "?" Urllib.scheme_chars) with false.
    by rewrite andb_false_r, andb_false_r.
Qed.

Lemma first_delim_le t : first_delim t <= String.length t.
Proof.
  induction t as [|d t IH]; simpl; [done|]. destruct (is_delim d); lia.
Qed.

Lemma first_delim_app_delim t d q :
  is_delim d = true -> first_delim (t +:+ String d q) = first_delim t.
Proof.
  intros Hd. induction t as [|c t IH]; simpl; [by rewrite Hd|].
  destruct (is_delim c); [done|]. by rewrite IH.
Qed.

Lemma split_netloc_app_query rest q n u3 :
  Urllib.split_netloc rest = (n, u3) ->
  Urllib.split_netloc (rest +:+ String "?" q) = (n, u3 +:+ String "?" q).
Proof.
  unfold Urllib.split_netloc.
  destruct (String.eqb (Py.take 2 rest) "//") eqn:E.
  - apply take2_slashes in E as [t ->]. rewrite splitnetloc_eq.
    intros [= <- <-].
    change (String "/" (String "/" t) +:+ String "?" q)
      with (String "/" (String "/" (t +:+ String "?" q))).
    cbn [Py.take]. rewrite String.eqb_refl, splitnetloc_eq.
    rewrite first_delim_app_delim by reflexivity.
    pose proof (first_delim_le t).
    by rewrite take_app_le, drop_app_le by done.
  - intros [= <- <-].
    destruct rest as [|c1 rest]; [done|].
    by rewrite take2_app.
Qed.

Lemma urlsplit_query_noise u q :
  Py.contains "?" u = false -> Py.contains "#" u = false ->
  Py.contains "#" q = false ->
  Urllib.urlsplit chk (u +:+ String "?" q)
  = (fun r =>
       Urllib.mkSplit (Urllib.s_scheme r) (Urllib.s_netloc r) (Urllib.s_url r)
         (delete_unsafe q) (Urllib.s_fragment r))
      <$> Urllib.urlsplit chk u.
Proof.
  intros Hq Hf Hqf. rewrite !urlsplit_tail_eq, strip_unsafe_app_query.
  assert (Ku : forall c, Py.contains c u = false ->
                 Py.contains c (Urllib.strip_unsafe u) = false).
  { intros c Hc. apply contains_false, strip_unsafe_keeps.
    by apply contains_false. }
  destruct (Urllib.split_scheme (Urllib.strip_unsafe u)) as [s rest] eqn:E1.
  rewrite (split_scheme_app_query _ _ _ _ E1). unfold urlsplit_tail.
  destruct (Urllib.split_netloc rest) as [n u3] eqn:E2.
  rewrite (split_netloc_app_query _ _ _ _ E2).
  destruct (Urllib.netloc_ok chk n); cbn [negb]; [|done].
  assert (K3 : forall c, Py.contains c u = false -> Py.contains c u3 = false).
  { intros c Hc. apply contains_false.
    refine (proj2 (split_netloc_all _ _ _ _ E2 _)).
    eapply split_scheme_keeps; [exact E1|]. by apply contains_false, Ku. }
  assert (Hdq : Py.contains "#" (delete_unsafe q) = false).
  { apply contains_false. unfold delete_unsafe.
    by apply delete_all, delete_all, delete_all, contains_false. }
  rewrite (split_once_none "#" (u3 +:+ String "?" (delete_unsafe q)))
    by (rewrite contains_app, K3 by done; simpl; exact Hdq).
  rewrite split_once_sep by auto.
  rewrite (split_once_none "#" u3), (split_once_none "?" u3) by auto.
  reflexivity.
Qed.

(** X20: a query put after a URL that has none changes nothing in the
    result, whatever the query holds. *)
Theorem sanitize_url_query_noise u q :
  u <> "" ->
  Py.contains "?" u = false -> Py.contains "#" u = false ->
  Py.contains "#" q = false ->
  sanitize_url chk (u +:+ "?" +:+ q) = sanitize_url chk u.
Proof.
  intros Hu Hq Hf Hqf. unfold sanitize_url.
  destruct u as [|c u]; [done|]. cbn [String.append].
  change (String c (u +:+ String "?" q)) with (String c u +:+ String "?" q).
  rewrite !urlparse_eq, urlsplit_query_noise by done.
  destruct (Urllib.urlsplit chk (String c u)) as [[s n url q0 f]|]; [|done].
  cbn [fmap option_fmap option_map Urllib.s_scheme Urllib.s_netloc
       Urllib.s_url Urllib.s_fragment].
  unfold params_stage.
  cbn [Urllib.s_scheme Urllib.s_netloc Urllib.s_url Urllib.s_query
       Urllib.s_fragment].
  match goal with
  | |- context [match ?x with (_, _) => _ end] => by destruct x
  end.
Qed.

End QueryNoise.

Lemma sanitize_url_query_noise_witness :
  "https://example.org/shaarli/" <> ""
  /\ sanitize_url accept_all
       ("https://example.org/shaarli/" +:+ "?" +:+ "kw=computer%20services")
     = sanitize_url accept_all "https://example.org/shaarli/".
Proof.
  split; [discriminate|].
  apply (sanitize_url_query_noise accept_all "https://example.org/shaarli/"
           "kw=computer%20services"); [discriminate | reflexivity ..].
Defined.
